(** * Verification of the event-package core of NkwaTambe/test

    A shallow embedding of:
    - [src/src/crypto/pow.ts] ([solvePow]),
    - [src/src/utils/event-packer.ts] ([validateField], [validateFormData],
      [createEventPackage]),
    - the ZIP exporter [src/unnamed/part_008] ([base64ToUint8Array],
      [exportEventPackageAsZip]),
    - the key store [src/unnamed/part_007] ([storeKeyPair], [retrieveKeyPair])
      and its type guard [isEventPackage],
    - the callers [validate], [cleanData] and [handleSaveDraft] of
      [src/src/components/EventForm.tsx], [KeyManagement] of
      [src/src/pages/CategorySelectionPage.tsx], and the label cache of
      [src/src/labels/label-manager.ts].

    Finite JavaScript numbers are modelled as integers [Z] (the code only
    compares them and writes them out), with [NaN] and the infinities as
    values of their own; string lengths count the characters of a Rocq
    [string]. *)

From Stdlib Require Import String Ascii ZArith List Lia.
From Stdlib Require Import Init.Byte.
From stdpp Require Import base list gmap strings pretty.

Open Scope string_scope.

(* ------------------------------------------------------------------ *)
(** ** Proof of work ([src/src/crypto/pow.ts]) *)
(* ------------------------------------------------------------------ *)

Module Pow.

Record PowChallenge := mkPowChallenge {
  prefix : string;
  difficulty : nat;
}.

(** ["0".repeat(n)] *)
Fixpoint repeat_zero (n : nat) : string :=
  match n with
  | O => ""
  | S n' => String "0" (repeat_zero n')
  end.

(** The number of leading ['0'] hex digits of a (lowercase hex) digest. *)
Fixpoint leading_zero_hex (s : string) : nat :=
  match s with
  | String c s' => if Ascii.eqb c "0" then S (leading_zero_hex s') else O
  | EmptyString => O
  end.

Section Solve.

(** [sha256] from js-sha256: a digest as a lowercase hex string. *)
Variable sha256 : string -> string.
Variable challenge : PowChallenge.

(** [`${challenge.prefix}:${nonce}`] *)
Definition pow_data (nonce : nat) : string :=
  prefix challenge ++ ":" ++ pretty (N.of_nat nonce).

(** The body of the [while (true)] loop of [solvePow], run for at most
    [fuel] iterations; [None] means the loop is still running. *)
Fixpoint solve_loop (target : string) (nonce fuel : nat) : option nat :=
  match fuel with
  | O => None
  | S fuel' =>
      let hash := sha256 (pow_data nonce) in
      if String.prefix target hash then Some nonce
      else solve_loop target (S nonce) fuel'
  end.

(** [solvePow challenge]: [nonce = 0], [target = "0".repeat(difficulty)]. *)
Definition solvePow (fuel : nat) : option nat :=
  solve_loop (repeat_zero (difficulty challenge)) 0 fuel.

(** The property required of a solution: at least [difficulty] leading
    zero hex digits in the hash of [prefix:nonce]. *)
Definition pow_ok (nonce : nat) : Prop :=
  difficulty challenge <= leading_zero_hex (sha256 (pow_data nonce)).

End Solve.

(** A toy digest, to run [solvePow] on concrete inputs. *)
Definition toy_sha256 (s : string) : string :=
  if String.eqb s "test:2" then "00af" else
  if String.eqb s "test:1" then "0f3c" else "9e01".

End Pow.

(* ------------------------------------------------------------------ *)
(** ** Labels and form validation ([src/src/labels/label-manager.ts],
       [src/src/utils/event-packer.ts]) *)
(* ------------------------------------------------------------------ *)

Module Validation.

Inductive LabelType := Tdate | Ttext | Tnumber | Tenum | Tmedia | Tboolean.

Record Constraints := mkConstraints {
  maxLength : option Z;
  minLength : option Z;
  pattern : option string;
  min : option Z;
  max : option Z;
}.

Record Label := mkLabel {
  labelId : string;
  name_en : string;
  name_fr : string;
  type : LabelType;
  required : bool;
  placeholder : option string;
  constraints : option Constraints;
  options : option (list string);
}.

(** Runtime JavaScript values read from [formData]: the [FieldValue]
    kinds (strings; numbers, the finite ones as integers [VNum] and the
    non-finite ones [NaN] and [+Infinity]/[-Infinity] as [VNaN] and
    [VInf negative]; booleans; [null]) and the values of other types a
    read of [formData] can yield: an object [VObj] ([Object.prototype],
    read through the inherited accessor [__proto__]) and a function [VFun]
    (a method of [Object.prototype], read through a key such as
    ["constructor"]).  No caller puts a bigint or a symbol in [formData]
    (the form stores strings, [Number(...)] and checkbox states), so these
    are not modelled.  [undefined], what a missing key yields, is [None]
    of an [option value]. *)
Inductive value :=
  | VStr (s : string)
  | VNum (n : Z)
  | VBool (b : bool)
  | VNull
  | VObj
  | VNaN
  | VInf (negative : bool)
  | VFun.

(** The members of [Object.prototype] that [obj[key]] reads when [obj] has
    no own property [key]: its methods, and the accessor [__proto__], which
    returns the prototype itself. *)
Definition object_prototype_member (k : string) : option value :=
  if String.eqb k "__proto__" then Some VObj
  else if existsb (String.eqb k)
            ["constructor"; "hasOwnProperty"; "isPrototypeOf";
             "propertyIsEnumerable"; "toLocaleString"; "toString"; "valueOf";
             "__defineGetter__"; "__defineSetter__"; "__lookupGetter__";
             "__lookupSetter__"]
       then Some VFun
       else None.

(** [obj[key]] on a plain object ([formData] is an object literal): its own
    property, else the inherited member of [Object.prototype], else
    [undefined]. *)
Definition js_get (obj : gmap string value) (k : string) : option value :=
  match obj !! k with
  | Some v => Some v
  | None => object_prototype_member k
  end.

(** [value === null || value === undefined || value === ""] *)
Definition is_blank (v : option value) : bool :=
  match v with
  | None | Some VNull => true
  | Some (VStr s) => String.eqb s ""
  | Some _ => false
  end.

(** [value < bound] and [value > bound] for a number [value]: every
    comparison with [NaN] is false. *)
Definition num_lt (v : value) (bound : Z) : bool :=
  match v with
  | VNum n => Z.ltb n bound
  | VInf negative => negative
  | _ => false
  end.

Definition num_gt (v : value) (bound : Z) : bool :=
  match v with
  | VNum n => Z.gtb n bound
  | VInf negative => negb negative
  | _ => false
  end.

(** [typeof value === "number"] *)
Definition is_number (v : value) : bool :=
  match v with
  | VNum _ | VNaN | VInf _ => true
  | _ => false
  end.

Definition validateNumberField (v : value) (label : Label) : option string :=
  if negb (is_number v) then Some "Must be a number"
  else
    match constraints label with
    | None => None
    | Some c =>
        match min c with
        | Some m => if num_lt v m then Some ("Must be at least " ++ pretty m)
                    else
                      match max c with
                      | Some x => if num_gt v x then Some ("Must be at most " ++ pretty x)
                                  else None
                      | None => None
                      end
        | None =>
            match max c with
            | Some x => if num_gt v x then Some ("Must be at most " ++ pretty x)
                        else None
            | None => None
            end
        end
    end.

Definition validateTextField (v : value) (label : Label) : option string :=
  match v with
  | VStr s =>
      match constraints label with
      | Some c =>
          match maxLength c with
          | Some ml =>
              if Z.gtb (Z.of_nat (String.length s)) ml
              then Some ("Must be at most " ++ pretty ml ++ " characters")
              else None
          | None => None
          end
      | None => None
      end
  | _ => Some "Must be text"
  end.

Definition validateField (v : option value) (label : Label) : option string :=
  if required label && is_blank v then Some (labelId label ++ " is required")
  else
    match v with
    | None | Some VNull => None
    | Some x =>
        match type label with
        | Tnumber => validateNumberField x label
        | Ttext => validateTextField x label
        | _ => None
        end
    end.

(** [labels.forEach(...)]: [if (error) errors[label.labelId] = error]. *)
Definition validate_step (formData : gmap string value)
    (errors : gmap string string) (label : Label) : gmap string string :=
  match validateField (js_get formData (labelId label)) label with
  | Some e => if String.eqb e "" then errors else <[labelId label := e]> errors
  | None => errors
  end.

(** [validateFormData]: [(isValid, errors)] with
    [isValid = Object.keys(errors).length === 0]. *)
Definition validateFormData (formData : gmap string value) (labels : list Label)
    : bool * gmap string string :=
  let errors := fold_left (validate_step formData) labels ∅ in
  (Nat.eqb (size errors) 0, errors).









(** Concrete labels used on concrete inputs below. *)
Definition name_label : Label :=
  mkLabel "1" "Event Name" "Nom" Ttext true None
    (Some (mkConstraints (Some 5%Z) None None None None)) None.


Definition age_label : Label :=
  mkLabel "n" "Age" "Age" Tnumber false None
    (Some (mkConstraints None None None (Some 0%Z) (Some 120%Z))) None.

(** A label whose id is the name of a method of [Object.prototype]. *)
Definition constructor_label : Label :=
  mkLabel "constructor" "Builder" "Constructeur" Ttext false None None None.


End Validation.

(* ------------------------------------------------------------------ *)
(** ** JavaScript string methods used by the code *)
(* ------------------------------------------------------------------ *)

Module JsString.

(** [String.prototype.split] on a one-character separator. *)
Fixpoint split_on (sep : ascii) (s : string) : list string :=
  match s with
  | EmptyString => [""]
  | String c s' =>
      match split_on sep s' with
      | cur :: rest =>
          if Ascii.eqb c sep then "" :: cur :: rest else String c cur :: rest
      | [] => [String c ""]
      end
  end.

(** [String.prototype.includes] *)
Fixpoint includes (pat s : string) : bool :=
  String.prefix pat s ||
  match s with
  | String _ s' => includes pat s'
  | EmptyString => false
  end.

(** Whether a character occurs in a string. *)
Definition has_char (c : ascii) (s : string) : bool :=
  existsb (Ascii.eqb c) (list_ascii_of_string s).

End JsString.

(* ------------------------------------------------------------------ *)
(** ** Base64 of the browser ([btoa], [atob], [FileReader.readAsDataURL])

    The exporter decodes the data URL written by [FileReader] with [atob].
    A binary string is a Rocq [string]: its characters are 8-bit, as the
    char codes of a JavaScript binary string. *)
(* ------------------------------------------------------------------ *)

Module Base64.

Definition alphabet : list ascii :=
  list_ascii_of_string
    "ABCDEFGHIJKLMNOPQRSTUVWXYZabcdefghijklmnopqrstuvwxyz0123456789+/".

(** [charCodeAt] and [String.fromCharCode] on binary strings. *)
Definition code (c : ascii) : Z := Z.of_N (N_of_ascii c).
Definition chr (z : Z) : ascii := ascii_of_N (Z.to_N z).

Definition enc_char (s : Z) : ascii := nth (Z.to_nat s) alphabet "A"%char.

Fixpoint index_from (c : ascii) (l : list ascii) (i : Z) : option Z :=
  match l with
  | [] => None
  | d :: l' => if Ascii.eqb c d then Some i else index_from c l' (i + 1)
  end.

Definition dec_char (c : ascii) : option Z := index_from c alphabet 0.

Definition pad : ascii := "="%char.

(** Three bytes to four characters; a short last group is padded. *)
Fixpoint encode (l : list ascii) : list ascii :=
  match l with
  | a :: b :: c :: rest =>
      enc_char (code a / 4)
      :: enc_char ((code a mod 4) * 16 + code b / 16)
      :: enc_char ((code b mod 16) * 4 + code c / 64)
      :: enc_char (code c mod 64) :: encode rest
  | [a; b] =>
      [enc_char (code a / 4); enc_char ((code a mod 4) * 16 + code b / 16);
       enc_char ((code b mod 16) * 4); pad]
  | [a] => [enc_char (code a / 4); enc_char ((code a mod 4) * 16); pad; pad]
  | [] => []
  end.

Definition btoa (s : string) : string :=
  string_of_list_ascii (encode (list_ascii_of_string s)).

(** The forgiving-base64 decode of [atob]: drop ASCII whitespace, drop one
    or two trailing [=] when the length is a multiple of 4, fail on a
    length of the form [4k+1] or on a character outside the alphabet, then
    read 6 bits per character, discarding the leftover bits. *)
Definition is_ascii_whitespace (c : ascii) : bool :=
  let n := nat_of_ascii c in
  Nat.eqb n 9 || Nat.eqb n 10 || Nat.eqb n 12 || Nat.eqb n 13 || Nat.eqb n 32.

Definition strip_padding (l : list ascii) : list ascii :=
  if Nat.eqb (length l mod 4) 0 then
    match rev l with
    | c1 :: r =>
        if Ascii.eqb c1 pad then
          match r with
          | c2 :: r' => if Ascii.eqb c2 pad then rev r' else rev r
          | [] => []
          end
        else l
    | [] => l
    end
  else l.

Fixpoint map_opt {A B} (f : A -> option B) (l : list A) : option (list B) :=
  match l with
  | [] => Some []
  | x :: l' =>
      match f x, map_opt f l' with
      | Some y, Some ys => Some (y :: ys)
      | _, _ => None
      end
  end.

Fixpoint decode (vals : list Z) : option (list ascii) :=
  match vals with
  | a :: b :: c :: d :: rest =>
      match decode rest with
      | Some r =>
          Some (chr (a * 4 + b / 16) :: chr ((b mod 16) * 16 + c / 4)
                :: chr ((c mod 4) * 64 + d) :: r)
      | None => None
      end
  | [a; b; c] => Some [chr (a * 4 + b / 16); chr ((b mod 16) * 16 + c / 4)]
  | [a; b] => Some [chr (a * 4 + b / 16)]
  | [_] => None
  | [] => Some []
  end.

(** [atob]; [None] is the [InvalidCharacterError] it throws. *)
Definition atob (s : string) : option string :=
  let l := strip_padding
             (List.filter (fun c => negb (is_ascii_whitespace c)) (list_ascii_of_string s)) in
  if Nat.eqb (length l mod 4) 1 then None
  else
    match map_opt dec_char l with
    | Some vals => option_map string_of_list_ascii (decode vals)
    | None => None
    end.

(** The six-bit values [encode] turns into characters, without padding. *)
Fixpoint sextets (l : list ascii) : list Z :=
  match l with
  | a :: b :: c :: rest =>
      (code a / 4)%Z :: ((code a mod 4) * 16 + code b / 16)%Z
      :: ((code b mod 16) * 4 + code c / 64)%Z :: (code c mod 64)%Z :: sextets rest
  | [a; b] => [(code a / 4)%Z; ((code a mod 4) * 16 + code b / 16)%Z; ((code b mod 16) * 4)%Z]
  | [a] => [(code a / 4)%Z; ((code a mod 4) * 16)%Z]
  | [] => []
  end.

Definition padding (n : nat) : list ascii :=
  match n mod 3 with
  | 1 => [pad; pad]
  | 2 => [pad]
  | _ => []
  end.

End Base64.

(* ------------------------------------------------------------------ *)
(** ** Results of fallible code: a thrown [Error] is [Err message] *)
(* ------------------------------------------------------------------ *)

Inductive result (A : Type) :=
  | Ok (a : A)
  | Err (msg : string).
Arguments Ok {A} a.
Arguments Err {A} msg.

Definition bind_result {A B} (m : result A) (k : A -> result B) : result B :=
  match m with
  | Ok x => k x
  | Err e => Err e
  end.

(** [const x = m; k], where [m] may throw. *)
Notation "'let!' x ':=' m 'in' k" := (bind_result m (fun x => k))
  (at level 200, x name, m at level 100, k at level 200).

(* ------------------------------------------------------------------ *)
(** ** Event types ([src/unnamed/part_007], [types/event.ts]) *)
(* ------------------------------------------------------------------ *)

Module Event.

Inductive Source := web | mobile | api.

Record EventAnnotation := mkAnnotation {
  labelId : string;
  value : Validation.value;
  timestamp : string;
}.

Record EventMedia := mkMedia {
  type : string;
  data : string;
  name : string;
  size : Z;
  lastModified : Z;
}.

Record Metadata := mkMetadata {
  createdAt : string;
  createdBy : option string;
  source : Source;
}.

Record EventPackage := mkPackage {
  id : string;
  version : string;
  annotations : list EventAnnotation;
  media : option EventMedia;
  metadata : Metadata;
}.

End Event.

(* ------------------------------------------------------------------ *)
(** ** Package builder ([createEventPackage], [src/src/utils/event-packer.ts]) *)
(* ------------------------------------------------------------------ *)

Module Packer.
Import Validation.

(** A browser [File]: its bytes, MIME type, name and last-modified instant
    (milliseconds); [File.size] is the number of bytes. *)
Record File := mkFile {
  file_name : string;
  file_type : string;
  file_bytes : list byte;
  file_lastModified : Z;
}.

Definition file_size (f : File) : Z := Z.of_nat (length (file_bytes f)).

(** [FileReader.readAsDataURL]: [data:<type>;base64,<btoa(bytes)>]. *)
Definition readAsDataURL (f : File) : string :=
  "data:" ++ file_type f ++ ";base64," ++ Base64.btoa (string_of_list_byte (file_bytes f)).

(** [fileToBase64]: [read_failure] is the outcome of the read, [Some msg]
    when the reader fires [onerror] with [reader.error.message = msg]. *)
Definition fileToBase64 (read_failure : option string) (f : File) : result string :=
  match read_failure with
  | Some msg => Err (if String.eqb msg "" then "Failed to read file" else msg)
  | None => Ok (readAsDataURL f)
  end.

Record Options := mkOptions {
  createdBy : option string;
  source : option Event.Source;
}.

(** [formData[label.labelId] ?? null] *)
Definition field_value (formData : gmap string value) (label : Label) : value :=
  match js_get formData (labelId label) with
  | Some v => v
  | None => VNull
  end.

Definition typeof (v : value) : string :=
  match v with
  | VStr _ => "string"
  | VNum _ | VNaN | VInf _ => "number"
  | VBool _ => "boolean"
  | VNull | VObj => "object"
  | VFun => "function"
  end.

(** The runtime type check: [value !== null && typeof value !== "string" &&
    typeof value !== "number" && typeof value !== "boolean"]. *)
Definition invalid_type (v : value) : bool :=
  negb (match v with VNull => true | _ => false end) &&
  negb (String.eqb (typeof v) "string") &&
  negb (String.eqb (typeof v) "number") &&
  negb (String.eqb (typeof v) "boolean").

(** The callback of [labels.map]: the runtime type check, then the
    annotation stamped with [now]. *)
Definition annotate (now : string) (formData : gmap string value) (label : Label)
    : result Event.EventAnnotation :=
  let v := field_value formData label in
  if invalid_type v
  then Err ("Invalid value type for " ++ labelId label ++ ": " ++ typeof v)
  else Ok (Event.mkAnnotation (labelId label) v now).

(** [Array.prototype.map] with a callback that may throw. *)
Fixpoint map_result {A B} (f : A -> result B) (l : list A) : result (list B) :=
  match l with
  | [] => Ok []
  | x :: l' => let! y := f x in let! ys := map_result f l' in Ok (y :: ys)
  end.

(** [createEventPackage formData labels mediaFile options], where [now] is
    [new Date().toISOString()], [uuid] the value of [uuidv4()] and
    [read_failure] the outcome of reading [mediaFile].  The final
    [isEventPackage] guard only checks that the fields [id], [version],
    [annotations] (each with [labelId], [value], [timestamp]) and
    [media.type], [media.data] exist, which the record types guarantee, so
    it always passes here. *)
Definition createEventPackage (formData : gmap string value) (labels : list Label)
    (mediaFile : option File) (options : Options)
    (now uuid : string) (read_failure : option string) : result Event.EventPackage :=
  let! anns := map_result (annotate now formData) labels in
  let annotations := (anns ++ [Event.mkAnnotation "createdAt" (VStr now) now])%list in
  let! media := match mediaFile with
           | Some f =>
               match fileToBase64 read_failure f with
               | Ok d => Ok (Some (Event.mkMedia (file_type f) d (file_name f)
                                                 (file_size f) (file_lastModified f)))
               | Err m => Err ("Failed to process media file: " ++ m)
               end
           | None => Ok None
           end in
  Ok (Event.mkPackage uuid "1.0.0" annotations media
        (Event.mkMetadata now (createdBy options)
           (match source options with Some s => s | None => Event.web end))).

(** The annotation [labels.map] emits for a label whose value passes the
    runtime type check. *)
Definition label_annotation (now : string) (formData : gmap string value)
    (label : Label) : Event.EventAnnotation :=
  Event.mkAnnotation (labelId label) (field_value formData label) now.

(** Concrete inputs. *)
Definition photo : File :=
  mkFile "photo.png" "image/png" [x89; x50; x4e; x47; x0d] 1700000000000.

Definition no_options : Options := mkOptions None None.

End Packer.

(* ------------------------------------------------------------------ *)
(** ** ZIP export ([src/unnamed/part_008]: [exportEventPackageAsZip]) *)
(* ------------------------------------------------------------------ *)

Module Zip.
Import Validation Event JsString.

(** JSON values; a text entry holds the value [JSON.stringify] writes, and
    unpacking reads it back with [JSON.parse]. *)
#[warnings="-register-all"]
Inductive json :=
  | JNull
  | JBool (b : bool)
  | JNum (n : Z)
  | JStr (s : string)
  | JArr (items : list json)
  | JObj (fields : list (string * json)).

Inductive entry :=
  | EText (j : json)
  | EBinary (bytes : list byte).

(** A JSZip instance: its files by name, in insertion order. *)
Definition archive := list (string * entry).

(** [zip.file(name, data)]: replaces a file of the same name, else adds it. *)
Definition zip_file (name : string) (d : entry) (z : archive) : archive :=
  if existsb (fun p => String.eqb (fst p) name) z
  then map (fun p => if String.eqb (fst p) name then (name, d) else p) z
  else (z ++ [(name, d)])%list.

Definition find_entry (name : string) (z : archive) : option entry :=
  option_map snd (List.find (fun p => String.eqb (fst p) name) z).

Definition getFileExtension (mimeType : string) : string :=
  let parts := split_on "/" mimeType in
  if Nat.ltb 1 (length parts) then nth 1 parts "" else "bin".

(** [base64ToUint8Array]; [None] is the exception [atob] throws.  When
    [split(",")] has no second part, JavaScript passes [undefined] to
    [atob], which reads it as the string ["undefined"]. *)
Definition base64ToUint8Array (base64 : string) : option (list byte) :=
  let base64Data :=
    if includes "base64," base64 then nth 1 (split_on "," base64) "undefined"
    else base64 in
  match Base64.atob base64Data with
  | Some binaryString => Some (list_byte_of_string binaryString)
  | None => None
  end.

(** [JSON.stringify] of a value in an object: [NaN] and [Infinity] are
    written as [null], [Object.prototype] as [{}], and a function is
    [undefined] ([None]), a property [JSON.stringify] omits. *)
Definition json_of_value (v : Validation.value) : option json :=
  match v with
  | VStr s => Some (JStr s)
  | VNum n => Some (JNum n)
  | VBool b => Some (JBool b)
  | VNull | VNaN | VInf _ => Some JNull
  | VObj => Some (JObj [])
  | VFun => None
  end.

Definition json_of_annotation (a : EventAnnotation) : json :=
  JObj ([("labelId", JStr (labelId a))] ++
        match json_of_value (value a) with
        | Some j => [("value", j)]
        | None => []
        end ++
        [("timestamp", JStr (timestamp a))])%list.

Definition source_name (s : Source) : string :=
  match s with web => "web" | mobile => "mobile" | api => "api" end.

(** [JSON.stringify] omits the [undefined] [createdBy]. *)
Definition metadata_json (pkg : EventPackage) : json :=
  JObj ([("id", JStr (id pkg)); ("version", JStr (version pkg));
         ("createdAt", JStr (createdAt (metadata pkg)))] ++
        match createdBy (metadata pkg) with
        | Some c => [("createdBy", JStr c)]
        | None => []
        end ++
        [("source", JStr (source_name (source (metadata pkg))));
         ("annotationCount", JNum (Z.of_nat (length (annotations pkg))));
         ("hasMedia", JBool (match media pkg with Some _ => true | None => false end))])%list.

Section ZipExport.

(** [Date.prototype.toISOString] on a valid time value. *)
Variable iso_string : Z -> string.

(** [new Date(ms).toISOString()]: a time value beyond 8.64e15 ms is an
    invalid date, on which [toISOString] throws a [RangeError]. *)
Definition toISOString (ms : Z) : result string :=
  if Z.leb (Z.abs ms) 8640000000000000 then Ok (iso_string ms)
  else Err "Invalid time value".

Definition media_metadata_json (m : EventMedia) : result json :=
  if Z.eqb (lastModified m) 0 then
    Ok (JObj [("originalName", JStr (name m)); ("type", JStr (type m));
              ("size", JNum (size m)); ("lastModified", JNull)])
  else
    let! iso := toISOString (lastModified m) in
    Ok (JObj [("originalName", JStr (name m)); ("type", JStr (type m));
              ("size", JNum (size m)); ("lastModified", JStr iso)]).

(** The [try] block around the media file: every exception thrown in it is
    caught and logged, and the files added before the throw stay. *)
Definition add_media (includeMetadata : bool) (m : EventMedia) (z : archive)
    : archive :=
  match base64ToUint8Array (data m) with
  | None => z
  | Some fileData =>
      let z' := zip_file ("media." ++ getFileExtension (type m)) (EBinary fileData) z in
      if includeMetadata then
        match media_metadata_json m with
        | Ok mm => zip_file "media_metadata.json" (EText mm) z'
        | Err _ => z'
        end
      else z'
  end.

(** [exportEventPackageAsZip pkg {includeMedia, includeMetadata}]; the
    archive stands for the generated blob (compression, dates, comments and
    permissions of the entries are not modelled). *)
Definition exportEventPackageAsZip (pkg : EventPackage)
    (includeMedia includeMetadata : bool) : result archive :=
  let z1 := if includeMetadata then zip_file "metadata.json" (EText (metadata_json pkg)) []
            else [] in
  let z2 := zip_file "annotations.json" (EText (JArr (map json_of_annotation (annotations pkg)))) z1 in
  let z3 := if includeMedia then
              match media pkg with
              | Some m => add_media includeMetadata m z2
              | None => z2
              end
            else z2 in
  Ok z3.

End ZipExport.

(** Unpacking: [JSON.parse] of [annotations.json] read back as annotations. *)
Definition value_of_json (j : json) : option Validation.value :=
  match j with
  | JStr s => Some (VStr s)
  | JNum n => Some (VNum n)
  | JBool b => Some (VBool b)
  | JNull => Some VNull
  | _ => None
  end.

Definition annotation_of_json (j : json) : option EventAnnotation :=
  match j with
  | JObj [("labelId", JStr l); ("value", v); ("timestamp", JStr t)] =>
      match value_of_json v with
      | Some v' => Some (mkAnnotation l v' t)
      | None => None
      end
  | _ => None
  end.

Definition unpack_annotations (z : archive) : option (list EventAnnotation) :=
  match find_entry "annotations.json" z with
  | Some (EText (JArr items)) => Base64.map_opt annotation_of_json items
  | _ => None
  end.

(** What [JSON.parse] gives back for a value [JSON.stringify] wrote as a
    number, string, boolean or [null]: the non-finite numbers come back as
    [null]. *)
Definition json_value_back (v : Validation.value) : Validation.value :=
  match v with
  | VNaN | VInf _ => VNull
  | _ => v
  end.

Definition json_annotation_back (a : EventAnnotation) : EventAnnotation :=
  mkAnnotation (labelId a) (json_value_back (value a)) (timestamp a).

(** Concrete inputs. *)
Definition sample_iso (_ : Z) : string := "2023-11-14T22:13:20.000Z".

(** A package whose media data is not valid base64. *)
Definition bad_media_package : EventPackage :=
  mkPackage "0b7e" "1.0.0" []
    (Some (mkMedia "image/png" "data:image/png;base64,!!!!" "photo.png" 5 0))
    (mkMetadata "2024-05-01T10:00:00.000Z" None web).

(** A file whose [lastModified] lies beyond the range of [Date], and the
    package [createEventPackage] builds from it with no label. *)
Definition far_future_photo : Packer.File :=
  Packer.mkFile "photo.png" "image/png" [x89; x50; x4e; x47; x0d] 10000000000000000.

Definition far_future_media : EventMedia :=
  mkMedia "image/png" (Packer.readAsDataURL far_future_photo) "photo.png" 5
    10000000000000000.

Definition far_future_package : EventPackage :=
  mkPackage "0b7e" "1.0.0"
    [mkAnnotation "createdAt" (VStr "2024-05-01T10:00:00.000Z") "2024-05-01T10:00:00.000Z"]
    (Some far_future_media) (mkMetadata "2024-05-01T10:00:00.000Z" None web).

End Zip.

(* ------------------------------------------------------------------ *)
(** ** Key store ([src/unnamed/part_007]: [storeKeyPair], [retrieveKeyPair]) *)
(* ------------------------------------------------------------------ *)

Module KeyStore.

(** The stored record [{pub, priv, kid}]; the JSON web keys are kept as
    their serialized text. *)
Record KeyRecord := mkKeyRecord {
  pub : string;
  priv : string;
  kid : Z;
}.

(** Modelled from the spec: the [storage] object of [./storageSetup], which
    is not among the repository's files.  The spec (section 6) describes it
    as a document store with [insert] and [findOne] and at most one row per
    key: a row of a store is found by its key, and inserting a row whose key
    is already present fails with the error "Key already exists", which is
    what [storeKeyPair] expects.  Rows of the "keys" store are keyed by the
    [kid] of their value, the key [retrieveKeyPair] passes to [findOne]. *)
Definition Store := gmap (string * Z) KeyRecord.

Definition storage_insert (store : string) (r : KeyRecord) (st : Store)
    : result Store :=
  match st !! (store, kid r) with
  | Some _ => Err "Key already exists"
  | None => Ok (<[(store, kid r) := r]> st)
  end.

Definition storage_findOne (store : string) (k : Z) (st : Store) : option KeyRecord :=
  st !! (store, k).

(** [storeKeyPair()], with [generated] the pair [generateKeyPair()]
    returns; the state is the storage. *)
Definition storeKeyPair (generated : string * string) (st : Store)
    : result unit * Store :=
  let (publicKey, privateKey) := generated in
  match storage_insert "keys" (mkKeyRecord publicKey privateKey 1) st with
  | Ok st' => (Ok tt, st')
  | Err e =>
      if JsString.includes "Key already exists" e then (Ok tt, st) else (Err e, st)
  end.

(** [retrieveKeyPair(kid)]: [{publicKey, privateKey}], both [null] when no
    row is found. *)
Definition retrieveKeyPair (k : Z) (st : Store) : option string * option string :=
  match storage_findOne "keys" k st with
  | Some r => (Some (pub r), Some (priv r))
  | None => (None, None)
  end.

(** Successive calls of [storeKeyPair], each with the pair generated for it. *)
Fixpoint run_storeKeyPair (gens : list (string * string)) (st : Store)
    : list (result unit) * Store :=
  match gens with
  | [] => ([], st)
  | g :: gens' =>
      let (r, st1) := storeKeyPair g st in
      let (rs, st2) := run_storeKeyPair gens' st1 in
      (r :: rs, st2)
  end.

End KeyStore.

(* ------------------------------------------------------------------ *)
(** ** Callers in the form component ([src/src/components/EventForm.tsx]) *)
(* ------------------------------------------------------------------ *)

Module EventForm.
Import Validation.





End EventForm.

(* ------------------------------------------------------------------ *)
(** ** Key management ([KeyManagement] in
       [src/src/pages/CategorySelectionPage.tsx]) *)
(* ------------------------------------------------------------------ *)

Module KeyService.
Import KeyStore.

(** [KeyManagement()]: [keyPairExists] is the answer of
    [checkKeyPairExists()] and [generated] the pair [generateKeyPair()]
    would return.  The keys are JSON web key objects, so [!publicKey]
    holds only for the [null] of a missing row. *)
Definition KeyManagement (keyPairExists : bool) (generated : string * string)
    (st : Store) : result (string * string) * Store :=
  let (r, st1) := if keyPairExists then (Ok tt, st) else storeKeyPair generated st in
  match r with
  | Err e => (Err e, st1)
  | Ok _ =>
      match retrieveKeyPair 1 st1 with
      | (Some publicKey, Some privateKey) => (Ok (publicKey, privateKey), st1)
      | _ => (Err "Failed to retrieve key pair.", st1)
      end
  end.

End KeyService.

(* ------------------------------------------------------------------ *)
(** ** Label cache ([src/src/labels/label-manager.ts]) *)
(* ------------------------------------------------------------------ *)

Module LabelManager.
Import Validation.

Definition LABELS_STORAGE_KEY : string := "event-app-labels".

(** The labels [fetchLabels()] resolves with. *)
Definition fetchLabels : list Label :=
  [mkLabel "1" "Event Name" "Nom de l'événement" Ttext true None
     (Some (mkConstraints (Some 35%Z) None None None None)) None;
   mkLabel "2" "Event Date" "Date de l'événement" Tdate true None None None;
   mkLabel "3" "Category" "Catégorie" Tenum true None None
     (Some ["Music"; "Sports"; "Art"]);
   mkLabel "4" "Photo" "Photo" Tmedia false None None None].

Section Cache.

(** [JSON.stringify] on a label list, and [JSON.parse] read as a label
    list: [Err] when it throws, [Ok None] when it yields [null]. *)
Variable stringify : list Label -> string.
Variable parse : string -> result (option (list Label)).

(** [localStorage] as a map from keys to strings. *)
Definition cacheLabels (labels : list Label) (ls : gmap string string)
    : gmap string string :=
  <[LABELS_STORAGE_KEY := stringify labels]> ls.

(** [getCachedLabels()]: [if (storedLabels)] is false for a missing key
    and for the empty string. *)
Definition getCachedLabels (ls : gmap string string) : result (option (list Label)) :=
  match ls !! LABELS_STORAGE_KEY with
  | Some storedLabels =>
      if String.eqb storedLabels "" then Ok None else parse storedLabels
  | None => Ok None
  end.

(** [initializeLabels()]: the cached labels, or else the fetched ones,
    which are then cached. *)
Definition initializeLabels (ls : gmap string string)
    : result (list Label) * gmap string string :=
  match getCachedLabels ls with
  | Err e => (Err e, ls)
  | Ok (Some labels) => (Ok labels, ls)
  | Ok None => (Ok fetchLabels, cacheLabels fetchLabels ls)
  end.

End Cache.

End LabelManager.

(* ------------------------------------------------------------------ *)
(** ** Type guards ([src/unnamed/part_007], the content of [types/event.ts]) *)
(* ------------------------------------------------------------------ *)

Module TypeGuards.
Import Validation Event.

(** Runtime JavaScript values. *)
#[warnings="-register-all"]
Inductive jsval :=
  | JsUndefined
  | JsNull
  | JsBool (b : bool)
  | JsNum (n : Z)
  | JsNaN
  | JsInf (negative : bool)
  | JsFun
  | JsStr (s : string)
  | JsArr (items : list jsval)
  | JsObj (props : list (string * jsval)).

Definition typeof (v : jsval) : string :=
  match v with
  | JsUndefined => "undefined"
  | JsNull | JsArr _ | JsObj _ => "object"
  | JsBool _ => "boolean"
  | JsNum _ | JsNaN | JsInf _ => "number"
  | JsFun => "function"
  | JsStr _ => "string"
  end.

(** [key in v] on an object; none of the keys the guards test is an array
    index or ["length"], so it is false on arrays. *)
Definition has_key (key : string) (v : jsval) : bool :=
  match v with
  | JsObj props => existsb (fun p => String.eqb (fst p) key) props
  | _ => false
  end.

(** [v.key]: [undefined] when the property is missing. *)
Definition get (key : string) (v : jsval) : jsval :=
  match v with
  | JsObj props =>
      match List.find (fun p => String.eqb (fst p) key) props with
      | Some (_, x) => x
      | None => JsUndefined
      end
  | _ => JsUndefined
  end.

Definition isEventAnnotation (v : jsval) : bool :=
  String.eqb (typeof v) "object" &&
  match v with JsNull => false | _ => true end &&
  has_key "labelId" v && has_key "value" v && has_key "timestamp" v.

Definition isEventPackage (v : jsval) : bool :=
  if negb (String.eqb (typeof v) "object") || match v with JsNull => true | _ => false end
  then false
  else
    String.eqb (typeof (get "id" v)) "string" &&
    String.eqb (typeof (get "version" v)) "string" &&
    match get "annotations" v with
    | JsArr items => forallb isEventAnnotation items
    | _ => false
    end &&
    match get "media" v with
    | JsUndefined => true
    | m => String.eqb (typeof m) "object" &&
           match m with JsNull => false | _ => true end &&
           has_key "type" m && has_key "data" m
    end.

(** The object literals [createEventPackage] builds. *)
Definition js_of_value (v : Validation.value) : jsval :=
  match v with
  | VStr s => JsStr s
  | VNum n => JsNum n
  | VBool b => JsBool b
  | VNull => JsNull
  | VObj => JsObj []
  | VNaN => JsNaN
  | VInf negative => JsInf negative
  | VFun => JsFun
  end.

Definition js_of_annotation (a : EventAnnotation) : jsval :=
  JsObj [("labelId", JsStr (labelId a)); ("value", js_of_value (value a));
         ("timestamp", JsStr (timestamp a))].

Definition js_of_media (m : option EventMedia) : jsval :=
  match m with
  | Some m =>
      JsObj [("type", JsStr (type m)); ("data", JsStr (data m));
             ("name", JsStr (name m)); ("size", JsNum (size m));
             ("lastModified", JsNum (lastModified m))]
  | None => JsUndefined
  end.

Definition js_of_source (s : Source) : jsval :=
  JsStr (match s with web => "web" | mobile => "mobile" | api => "api" end).

Definition js_of_package (pkg : EventPackage) : jsval :=
  JsObj [("id", JsStr (id pkg)); ("version", JsStr (version pkg));
         ("annotations", JsArr (map js_of_annotation (annotations pkg)));
         ("media", js_of_media (media pkg));
         ("metadata",
            JsObj [("createdAt", JsStr (createdAt (metadata pkg)));
                   ("createdBy", match createdBy (metadata pkg) with
                                 | Some c => JsStr c
                                 | None => JsUndefined
                                 end);
                   ("source", js_of_source (source (metadata pkg)))])].

End TypeGuards.

(* ================================================================== *)
(** * Properties *)
(* ================================================================== *)

Module PowFacts.
Import Pow.

Example solvePow_toy :
  solvePow toy_sha256 (mkPowChallenge "test" 2) 10 = Some 2.
Proof. reflexivity. Qed.

Example solvePow_toy_d1 :
  solvePow toy_sha256 (mkPowChallenge "test" 1) 10 = Some 1.
Proof. reflexivity. Qed.

Lemma prefix_repeat_zero (d : nat) (s : string) :
  String.prefix (repeat_zero d) s = true <-> d <= leading_zero_hex s.
Proof.
  revert s. induction d as [|d IH]; intros s.
  - destruct s; simpl; split; (lia || reflexivity).
  - destruct s as [|c s']; cbn [String.prefix repeat_zero leading_zero_hex].
    + split; [discriminate | lia].
    + destruct (ascii_dec "0" c) as [<-|Hne].
      * cbn [Ascii.eqb Bool.eqb]. rewrite IH. lia.
      * assert (Ascii.eqb c "0" = false) as ->.
        { apply Ascii.eqb_neq. congruence. }
        split; [discriminate | lia].
Qed.

Lemma solve_loop_spec sha256 ch (k fuel n : nat) :
  solve_loop sha256 ch (repeat_zero (difficulty ch)) k fuel = Some n <->
  k <= n < k + fuel /\ pow_ok sha256 ch n /\
  (forall m, k <= m < n -> ~ pow_ok sha256 ch m).
Proof.
  unfold pow_ok.
  revert k. induction fuel as [|fuel IH]; intros k; simpl.
  - split; [discriminate | lia].
  - destruct (String.prefix _ (sha256 (pow_data ch k))) eqn:Hp.
    + apply prefix_repeat_zero in Hp.
      split.
      * intros [= <-]. split; [lia|]. split; [exact Hp|]. intros m Hm. lia.
      * intros (Hr & Hok & Hmin).
        destruct (Nat.eq_dec k n) as [->|Hne]; [reflexivity|].
        exfalso. apply (Hmin k); [lia | exact Hp].
    + assert (Hk : ~ difficulty ch <= leading_zero_hex (sha256 (pow_data ch k))).
      { rewrite <- prefix_repeat_zero. congruence. }
      rewrite IH. split.
      * intros (Hr & Hok & Hmin). split; [lia|]. split; [exact Hok|].
        intros m Hm. destruct (Nat.eq_dec m k) as [->|]; [exact Hk|].
        apply Hmin. lia.
      * intros (Hr & Hok & Hmin).
        destruct (Nat.eq_dec k n) as [->|Hne]; [contradiction|].
        split; [lia|]. split; [exact Hok|].
        intros m Hm. apply Hmin. lia.
Qed.

End PowFacts.

Module PowTheorems.
Import Pow PowFacts.

(** C1: [solvePow] counts up from nonce 0 and returns the first nonce whose
    hash [sha256(prefix ":" nonce)] has at least [difficulty] leading zero
    hex digits.  With the loop run for [fuel] iterations it returns [n]
    exactly when [n] is below [fuel], [n] satisfies the property and no
    smaller nonce does (so the search is exhaustive and minimal, and it
    terminates as soon as a solution exists). *)
Theorem solvePow_first_solution (sha256 : string -> string)
    (challenge : PowChallenge) (fuel n : nat) :
  solvePow sha256 challenge fuel = Some n <->
  n < fuel /\ pow_ok sha256 challenge n /\
  (forall m, m < n -> ~ pow_ok sha256 challenge m).
Proof.
  unfold solvePow. rewrite solve_loop_spec. split.
  - intros (Hr & Hok & Hmin). split; [lia|]. split; [exact Hok|].
    intros m Hm. apply Hmin. lia.
  - intros (Hr & Hok & Hmin). split; [lia|]. split; [exact Hok|].
    intros m Hm. apply Hmin. lia.
Qed.

End PowTheorems.

Module ValidationFacts.
Import Validation.







End ValidationFacts.

Module ValidationTheorems.
Import Validation ValidationFacts.

Example validate_toolong :
  validateFormData {[ "1" := VStr "toolong" ]} [name_label] =
  (false, {[ "1" := "Must be at most 5 characters" ]}).
Proof. vm_compute. reflexivity. Qed.

Example validate_ok :
  fst (validateFormData {[ "1" := VStr "ok" ]} [name_label]) = true.
Proof. vm_compute. reflexivity. Qed.

Example validate_bounds_inclusive :
  fst (validateFormData {[ "1" := VStr "abcde"; "n" := VNum 120 ]}
         [name_label; age_label]) = true /\
  fst (validateFormData {[ "1" := VStr "abcde"; "n" := VNum 0 ]}
         [name_label; age_label]) = true.
Proof. split; vm_compute; reflexivity. Qed.




(** C3 (code defect): an optional number field holding the empty string is
    not skipped: [validateField] only skips [null] and [undefined], so the
    number check reports "Must be a number" and the form is invalid. *)
Theorem validateField_empty_string_number :
  validateField (Some (VStr "")) age_label = Some "Must be a number" /\
  fst (validateFormData {[ "n" := VStr "" ]} [age_label]) = false.
Proof. split; vm_compute; reflexivity. Qed.

End ValidationTheorems.

Module Base64Facts.
Import Base64.

(** Induction following the three-byte groups of [encode]. *)
Definition list_ind3 {A} (P : list A -> Prop)
    (H0 : P []) (H1 : forall a, P [a]) (H2 : forall a b, P [a; b])
    (H3 : forall a b c r, P r -> P (a :: b :: c :: r)) :
    forall l, P l :=
  fix go l :=
    match l with
    | [] => H0
    | [a] => H1 a
    | [a; b] => H2 a b
    | a :: b :: c :: r => H3 a b c r (go r)
    end.

Lemma code_bounds (c : ascii) : (0 <= code c < 256)%Z.
Proof. unfold code. pose proof (N_ascii_bounded c). lia. Qed.

Lemma chr_code (c : ascii) : chr (code c) = c.
Proof. unfold chr, code. rewrite N2Z.id. apply ascii_N_embedding. Qed.

(** The 64 characters of the alphabet decode to their index, and none is
    the padding character or whitespace. *)
Definition enc_char_ok (n : nat) : bool :=
  match dec_char (enc_char (Z.of_nat n)) with
  | Some z => Z.eqb z (Z.of_nat n)
  | None => false
  end && negb (Ascii.eqb (enc_char (Z.of_nat n)) pad)
      && negb (is_ascii_whitespace (enc_char (Z.of_nat n)))
      && negb (Ascii.eqb "," (enc_char (Z.of_nat n))).

Lemma enc_char_spec (s : Z) :
  (0 <= s < 64)%Z ->
  dec_char (enc_char s) = Some s /\ enc_char s <> pad /\
  is_ascii_whitespace (enc_char s) = false /\ Ascii.eqb "," (enc_char s) = false.
Proof.
  intros Hs.
  assert (Hall : forallb enc_char_ok (seq 0 64) = true)
    by (vm_compute; reflexivity).
  rewrite forallb_forall in Hall.
  specialize (Hall (Z.to_nat s)). rewrite in_seq in Hall.
  unfold enc_char_ok in Hall. rewrite Z2Nat.id in Hall by lia.
  specialize (Hall ltac:(lia)).
  apply andb_prop in Hall as [Hall Hcomma].
  apply andb_prop in Hall as [Hall Hws]. apply andb_prop in Hall as [Hdec Hpad].
  destruct (dec_char (enc_char s)) as [z|]; [|discriminate].
  apply Z.eqb_eq in Hdec. subst z.
  apply negb_true_iff in Hpad, Hws, Hcomma. apply Ascii.eqb_neq in Hpad. auto.
Qed.

Ltac add_code_bounds :=
  repeat match goal with
  | |- context [code ?x] =>
      lazymatch goal with
      | _ : (0 <= code x < 256)%Z |- _ => fail
      | _ => pose proof (code_bounds x)
      end
  end.

Lemma sextets_bounds (l : list ascii) :
  Forall (fun s => (0 <= s < 64)%Z) (sextets l).
Proof.
  induction l as [|a|a b|a b c r IH] using list_ind3; simpl; add_code_bounds;
    repeat constructor; try assumption;
    Z.div_mod_to_equations; lia.
Qed.

Lemma padding_add3 (n : nat) : padding (S (S (S n))) = padding n.
Proof.
  unfold padding. replace (S (S (S n))) with (n + 1 * 3) by lia.
  rewrite Nat.Div0.mod_add. reflexivity.
Qed.

Lemma encode_sextets (l : list ascii) :
  encode l = (map enc_char (sextets l) ++ padding (length l))%list.
Proof.
  induction l as [|a|a b|a b c r IH] using list_ind3; try reflexivity.
  simpl length. rewrite padding_add3. simpl. rewrite IH. reflexivity.
Qed.

Lemma sextets_length (l : list ascii) :
  length (sextets l) mod 4 =
  match length l mod 3 with 0 => 0 | 1 => 2 | _ => 3 end.
Proof.
  induction l as [|a|a b|a b c r IH] using list_ind3; try reflexivity.
  simpl length. replace (S (S (S (length r)))) with (length r + 1 * 3) by lia.
  rewrite Nat.Div0.mod_add, <- IH.
  replace (S (S (S (S (length (sextets r)))))) with (length (sextets r) + 1 * 4)
    by lia.
  apply Nat.Div0.mod_add.
Qed.

Lemma group3 (a b c : Z) :
  (0 <= a < 256)%Z -> (0 <= b < 256)%Z -> (0 <= c < 256)%Z ->
  ((a / 4) * 4 + ((a mod 4) * 16 + b / 16) / 16 = a)%Z /\
  ((((a mod 4) * 16 + b / 16) mod 16) * 16 + ((b mod 16) * 4 + c / 64) / 4 = b)%Z /\
  ((((b mod 16) * 4 + c / 64) mod 4) * 64 + c mod 64 = c)%Z.
Proof. intros. Z.div_mod_to_equations. lia. Qed.

Lemma chr_eq (z : Z) (c : ascii) : z = code c -> chr z = c.
Proof. intros ->. apply chr_code. Qed.

Lemma decode_sextets (l : list ascii) : decode (sextets l) = Some l.
Proof.
  induction l as [|a|a b|a b c r IH] using list_ind3; simpl; add_code_bounds.
  - reflexivity.
  - do 3 f_equal. apply chr_eq. Z.div_mod_to_equations. lia.
  - do 2 f_equal; [|f_equal]; apply chr_eq; Z.div_mod_to_equations; lia.
  - rewrite IH.
    destruct (group3 (code a) (code b) (code c)) as (Ha & Hb & Hc); [lia..|].
    rewrite Ha, Hb, Hc, !chr_code. reflexivity.
Qed.

Lemma filter_no_whitespace (l : list ascii) :
  Forall (fun c => is_ascii_whitespace c = false) l ->
  List.filter (fun c => negb (is_ascii_whitespace c)) l = l.
Proof.
  induction 1 as [|c l Hc _ IH]; [reflexivity|].
  simpl. rewrite Hc. simpl. f_equal. exact IH.
Qed.

Lemma encode_no_whitespace (l : list ascii) :
  Forall (fun c => is_ascii_whitespace c = false) (encode l).
Proof.
  rewrite encode_sextets. apply Forall_app. split.
  - apply Forall_map. eapply Forall_impl; [apply sextets_bounds|].
    intros s Hs. apply (enc_char_spec s Hs).
  - unfold padding. destruct (length l mod 3) as [|[|[|]]]; repeat constructor.
Qed.

Lemma map_opt_dec_char (S : list Z) :
  Forall (fun s => (0 <= s < 64)%Z) S ->
  map_opt dec_char (map enc_char S) = Some S.
Proof.
  induction 1 as [|s S Hs _ IH]; [reflexivity|].
  simpl. rewrite (proj1 (enc_char_spec s Hs)), IH. reflexivity.
Qed.

Lemma rev_map_enc_char (S : list Z) :
  Forall (fun s => (0 <= s < 64)%Z) S ->
  rev (map enc_char S) = [] \/
  exists c r, rev (map enc_char S) = c :: r /\ Ascii.eqb c pad = false.
Proof.
  intros HS. destruct (rev S) as [|s R] eqn:HR.
  - left. rewrite <- map_rev, HR. reflexivity.
  - right. rewrite <- map_rev, HR. simpl. exists (enc_char s), (map enc_char R).
    split; [reflexivity|]. apply Ascii.eqb_neq.
    assert (Hin : In s (rev S)) by (rewrite HR; left; reflexivity).
    apply in_rev in Hin. rewrite List.Forall_forall in HS.
    apply (enc_char_spec s (HS s Hin)).
Qed.

Lemma strip_padding_encode (l : list ascii) :
  strip_padding (encode l) = map enc_char (sextets l).
Proof.
  pose proof (sextets_length l) as Hlen.
  pose proof (rev_map_enc_char _ (sextets_bounds l)) as Hrev.
  rewrite encode_sextets. unfold strip_padding, padding in *.
  rewrite length_app, length_map.
  destruct (length l mod 3) as [|[|[|k]]] eqn:Hm; simpl length.
  - rewrite Nat.add_0_r, Hlen, app_nil_r. simpl.
    destruct Hrev as [-> | (c & r & -> & Hc)]; [reflexivity|]. rewrite Hc. reflexivity.
  - replace (length (sextets l) + 2) with (length (sextets l) + 2 * 1) by lia.
    rewrite Nat.Div0.add_mod, Hlen. simpl.
    rewrite rev_app_distr. simpl. rewrite rev_involutive. reflexivity.
  - rewrite Nat.Div0.add_mod, Hlen. simpl.
    rewrite rev_app_distr. simpl.
    destruct Hrev as [Hr | (c & r & Hr & Hc)]; rewrite Hr.
    + apply (f_equal (@rev ascii)) in Hr. rewrite rev_involutive in Hr.
      rewrite Hr. reflexivity.
    + rewrite Hc. rewrite <- Hr, rev_involutive. reflexivity.
  - pose proof (Nat.mod_upper_bound (length l) 3). lia.
Qed.

(** [atob] inverts [btoa] on every binary string. *)
Lemma atob_btoa (s : string) : atob (btoa s) = Some s.
Proof.
  unfold atob, btoa. rewrite list_ascii_of_string_of_list_ascii.
  rewrite filter_no_whitespace by apply encode_no_whitespace.
  rewrite strip_padding_encode, length_map, sextets_length.
  destruct (length (list_ascii_of_string s) mod 3) as [|[|[|]]]; simpl;
  rewrite map_opt_dec_char by apply sextets_bounds;
  rewrite decode_sextets; simpl; rewrite string_of_list_ascii_of_string;
  reflexivity.
Qed.

End Base64Facts.

Module PackerFacts.
Import Validation Packer.

Lemma annotate_ok (now : string) (formData : gmap string value) (l : Label)
    (a : Event.EventAnnotation) :
  annotate now formData l = Ok a <->
  invalid_type (field_value formData l) = false /\ a = label_annotation now formData l.
Proof.
  unfold annotate, label_annotation. cbv zeta.
  destruct (invalid_type (field_value formData l)); split.
  - discriminate.
  - intros [[=] _].
  - intros [= <-]. split; reflexivity.
  - intros [_ ->]. reflexivity.
Qed.

Lemma map_annotate_ok (now : string) (formData : gmap string value)
    (labels : list Label) (anns : list Event.EventAnnotation) :
  map_result (annotate now formData) labels = Ok anns <->
  Forall (fun l => invalid_type (field_value formData l) = false) labels /\
  anns = map (label_annotation now formData) labels.
Proof.
  revert anns. induction labels as [|l ls IH]; intros anns; simpl.
  - split; [intros [= <-]; split; [constructor | reflexivity]|].
    intros [_ ->]. reflexivity.
  - unfold bind_result at 1.
    destruct (annotate now formData l) as [a|e] eqn:Ha.
    + apply annotate_ok in Ha as [Hv ->].
      unfold bind_result.
      destruct (map_result (annotate now formData) ls) as [ys|e] eqn:Hys.
      * destruct (proj1 (IH ys) eq_refl) as [Hall ->].
        split; [intros [= <-]; split; [constructor; assumption | reflexivity]|].
        intros [_ ->]. reflexivity.
      * split; [discriminate|]. intros [Hall ->].
        inversion Hall as [|? ? _ Hall']; subst.
        pose proof (proj2 (IH _) (conj Hall' eq_refl)) as Hc. discriminate Hc.
    + split; [discriminate|]. intros [Hall _].
      inversion Hall as [|? ? Hl _]; subst.
      assert (Hok : annotate now formData l = Ok (label_annotation now formData l))
        by (apply annotate_ok; split; [exact Hl | reflexivity]).
      congruence.
Qed.

(** The first label, in list order, whose value fails the type check makes
    the annotation pass fail with its message. *)
Lemma map_annotate_first_invalid (now : string) (formData : gmap string value)
    (pre post : list Label) (l : Label) :
  Forall (fun l' => invalid_type (field_value formData l') = false) pre ->
  invalid_type (field_value formData l) = true ->
  map_result (annotate now formData) (pre ++ l :: post) =
  Err ("Invalid value type for " ++ labelId l ++ ": " ++ typeof (field_value formData l)).
Proof.
  intros Hpre Hl. induction Hpre as [|l' pre Hl' Hpre IH].
  - cbn [app map_result]. unfold annotate at 1. cbv zeta. rewrite Hl. reflexivity.
  - cbn [app map_result]. unfold annotate at 1. cbv zeta. rewrite Hl'.
    cbn [bind_result]. rewrite IH. reflexivity.
Qed.

(** Unfolding a successful build. *)
Lemma createEventPackage_ok (formData : gmap string value) (labels : list Label)
    (mediaFile : option File) (options : Options) (now uuid : string)
    (read_failure : option string) (pkg : Event.EventPackage) :
  createEventPackage formData labels mediaFile options now uuid read_failure = Ok pkg ->
  Forall (fun l => invalid_type (field_value formData l) = false) labels /\
  (mediaFile = None \/ read_failure = None) /\
  pkg = Event.mkPackage uuid "1.0.0"
          (map (label_annotation now formData) labels ++
           [Event.mkAnnotation "createdAt" (VStr now) now])%list
          (match mediaFile with
           | Some f => Some (Event.mkMedia (file_type f) (readAsDataURL f)
                               (file_name f) (file_size f) (file_lastModified f))
           | None => None
           end)
          (Event.mkMetadata now (createdBy options)
             (match source options with Some s => s | None => Event.web end)).
Proof.
  unfold createEventPackage, bind_result.
  destruct (map_result (annotate now formData) labels) as [anns|e] eqn:Hanns;
    [|discriminate].
  apply map_annotate_ok in Hanns as [Hall ->].
  destruct mediaFile as [f|]; [|intros [= <-]; auto].
  unfold fileToBase64. destruct read_failure as [msg|]; [discriminate|].
  intros [= <-]. auto.
Qed.

End PackerFacts.


Module PackerTheorems.
Import Validation Packer PackerFacts.

(** C4 (amended): the build checks only the runtime type of each label's
    value [formData[labelId] ?? null], never the label's declared type.
    The first label, in list order, whose value is not null and whose
    [typeof] is none of "string", "number" and "boolean" (an object, or a
    function such as the inherited [formData["constructor"]]) makes it fail
    with "Invalid value type for <labelId>: <typeof value>".  It succeeds
    exactly when every value passes the check and the media file, if any,
    is read, and then annotates each label with its value as is, followed
    by the "createdAt" annotation. *)
Theorem createEventPackage_runtime_type_check (formData : gmap string value)
    (labels : list Label) (mediaFile : option File) (options : Options)
    (now uuid : string) (read_failure : option string) :
  ((exists pkg,
      createEventPackage formData labels mediaFile options now uuid read_failure = Ok pkg) <->
   Forall (fun l => invalid_type (field_value formData l) = false) labels /\
   (mediaFile = None \/ read_failure = None)) /\
  (forall pkg,
     createEventPackage formData labels mediaFile options now uuid read_failure = Ok pkg ->
     map Event.value (Event.annotations pkg) =
     (map (field_value formData) labels ++ [VStr now])%list) /\
  (forall pre l post,
     labels = (pre ++ l :: post)%list ->
     Forall (fun l' => invalid_type (field_value formData l') = false) pre ->
     invalid_type (field_value formData l) = true ->
     createEventPackage formData labels mediaFile options now uuid read_failure =
     Err ("Invalid value type for " ++ labelId l ++ ": " ++ typeof (field_value formData l))).
Proof.
  split; [|split].
  - split.
    + intros [pkg Hpkg]. apply createEventPackage_ok in Hpkg as (Hall & Hm & _).
      split; assumption.
    + intros [Hall Hm]. unfold createEventPackage.
      rewrite (proj2 (map_annotate_ok now formData labels _) (conj Hall eq_refl)).
      simpl. destruct mediaFile as [f|]; [|eexists; reflexivity].
      destruct Hm as [Hm | ->]; [discriminate|]. eexists. reflexivity.
  - intros pkg Hpkg. apply createEventPackage_ok in Hpkg as (_ & _ & ->). simpl.
    rewrite map_app, map_map. reflexivity.
  - intros pre l post -> Hpre Hl. unfold createEventPackage.
    rewrite (map_annotate_first_invalid now formData pre post l Hpre Hl). reflexivity.
Qed.

Lemma createEventPackage_runtime_type_check_witness :
  createEventPackage {[ "n" := VNum 7 ]} [age_label; constructor_label] (Some photo)
    no_options "2024-05-01T10:00:00.000Z" "0b7e" None =
  Err "Invalid value type for constructor: function".
Proof.
  refine (proj2 (proj2 (createEventPackage_runtime_type_check {[ "n" := VNum 7 ]}
            [age_label; constructor_label] (Some photo) no_options
            "2024-05-01T10:00:00.000Z" "0b7e" None))
            [age_label] constructor_label [] eq_refl _ eq_refl).
  repeat constructor.
Defined.

(** C4 counterexample: a string given to a number-typed label is emitted
    as an annotation; the build does not reject it. *)
Lemma createEventPackage_string_for_number :
  Validation.type age_label = Tnumber /\
  exists pkg,
    createEventPackage {[ "n" := VStr "abc" ]} [age_label] None no_options
      "2024-05-01T10:00:00.000Z" "0b7e" None = Ok pkg /\
    In (Event.mkAnnotation "n" (VStr "abc") "2024-05-01T10:00:00.000Z")
       (Event.annotations pkg).
Proof.
  split; [reflexivity|]. eexists. split; [reflexivity|]. simpl. left. reflexivity.
Qed.

(** C5 (amended): the annotations of a built package are one annotation
    per label of the list, in order (its [labelId], its value
    [formData[labelId] ?? null], the build's timestamp), followed by one
    more annotation with labelId "createdAt" holding the timestamp. *)
Theorem createEventPackage_annotations (formData : gmap string value)
    (labels : list Label) (mediaFile : option File) (options : Options)
    (now uuid : string) (read_failure : option string) (pkg : Event.EventPackage) :
  createEventPackage formData labels mediaFile options now uuid read_failure = Ok pkg ->
  Event.annotations pkg =
  (map (label_annotation now formData) labels ++
   [Event.mkAnnotation "createdAt" (VStr now) now])%list.
Proof.
  intros Hpkg. apply createEventPackage_ok in Hpkg as (_ & _ & ->). reflexivity.
Qed.

Lemma createEventPackage_annotations_witness :
  match createEventPackage {[ "1" := VStr "Gala" ]} [name_label] (Some photo)
          no_options "2024-05-01T10:00:00.000Z" "0b7e" None with
  | Ok pkg =>
      Event.annotations pkg =
      (map (label_annotation "2024-05-01T10:00:00.000Z" {[ "1" := VStr "Gala" ]})
         [name_label] ++
       [Event.mkAnnotation "createdAt" (VStr "2024-05-01T10:00:00.000Z")
          "2024-05-01T10:00:00.000Z"])%list
  | Err _ => False
  end.
Proof.
  exact (createEventPackage_annotations {[ "1" := VStr "Gala" ]} [name_label]
           (Some photo) no_options "2024-05-01T10:00:00.000Z" "0b7e" None _
           eq_refl).
Defined.

(** C5 counterexample: with no label at all the package still carries one
    annotation, "createdAt", which references no label of the snapshot. *)
Lemma createEventPackage_extra_createdAt :
  match createEventPackage ∅ [] None no_options "2024-05-01T10:00:00.000Z" "0b7e" None with
  | Ok pkg => map Event.labelId (Event.annotations pkg) = ["createdAt"]
  | Err _ => False
  end.
Proof. reflexivity. Qed.

(** C6: every annotation of a built package carries the build's single
    timestamp, which is also [metadata.createdAt]; the package id is the
    value drawn from [uuidv4()] and the version is "1.0.0". *)
Theorem createEventPackage_timestamps (formData : gmap string value)
    (labels : list Label) (mediaFile : option File) (options : Options)
    (now uuid : string) (read_failure : option string) (pkg : Event.EventPackage) :
  createEventPackage formData labels mediaFile options now uuid read_failure = Ok pkg ->
  Forall (fun a => Event.timestamp a = Event.createdAt (Event.metadata pkg))
    (Event.annotations pkg) /\
  Event.createdAt (Event.metadata pkg) = now /\
  Event.id pkg = uuid /\ Event.version pkg = "1.0.0".
Proof.
  intros Hpkg. apply createEventPackage_ok in Hpkg as (_ & _ & ->). simpl.
  split; [|auto]. apply Forall_app. split; [|repeat constructor].
  apply Forall_map. apply Forall_true. reflexivity.
Qed.

Lemma createEventPackage_timestamps_witness :
  match createEventPackage {[ "1" := VStr "Gala" ]} [name_label; age_label]
          (Some photo) no_options "2024-05-01T10:00:00.000Z" "0b7e" None with
  | Ok pkg =>
      Forall (fun a => Event.timestamp a = Event.createdAt (Event.metadata pkg))
        (Event.annotations pkg) /\
      Event.createdAt (Event.metadata pkg) = "2024-05-01T10:00:00.000Z" /\
      Event.id pkg = "0b7e" /\ Event.version pkg = "1.0.0"
  | Err _ => False
  end.
Proof.
  exact (createEventPackage_timestamps {[ "1" := VStr "Gala" ]}
           [name_label; age_label] (Some photo) no_options
           "2024-05-01T10:00:00.000Z" "0b7e" None _ eq_refl).
Defined.

End PackerTheorems.

Module JsStringFacts.
Import JsString.

Lemma list_ascii_of_string_app (a b : string) :
  list_ascii_of_string (a ++ b) = (list_ascii_of_string a ++ list_ascii_of_string b)%list.
Proof. induction a as [|c a IH]; [reflexivity | exact (f_equal (cons c) IH)]. Qed.

Lemma has_char_app (c : ascii) (a b : string) :
  has_char c (a ++ b) = has_char c a || has_char c b.
Proof. unfold has_char. rewrite list_ascii_of_string_app. apply existsb_app. Qed.

Lemma string_app_assoc (a b c : string) : (a ++ b) ++ c = a ++ (b ++ c).
Proof. induction a as [|x a IH]; [reflexivity | exact (f_equal (String x) IH)]. Qed.

Lemma split_on_not_nil (sep : ascii) (s : string) : split_on sep s <> [].
Proof.
  induction s as [|c s IH]; simpl; [discriminate|].
  destruct (split_on sep s); [contradiction|].
  destruct (Ascii.eqb c sep); discriminate.
Qed.

Lemma split_on_none (sep : ascii) (s : string) :
  has_char sep s = false -> split_on sep s = [s].
Proof.
  unfold has_char. induction s as [|c s IH]; simpl; [reflexivity|].
  intros H. apply orb_false_iff in H as [Hc Hs].
  rewrite (IH Hs). rewrite Ascii.eqb_sym, Hc. reflexivity.
Qed.

Lemma split_on_app (sep : ascii) (a b : string) :
  has_char sep a = false ->
  split_on sep (a ++ String sep b) = a :: split_on sep b.
Proof.
  unfold has_char. induction a as [|c a IH]; simpl; intros H.
  - pose proof (split_on_not_nil sep b) as Hne.
    destruct (split_on sep b); [contradiction|].
    rewrite Ascii.eqb_refl. reflexivity.
  - apply orb_false_iff in H as [Hc Ha]. rewrite (IH Ha).
    rewrite Ascii.eqb_sym, Hc. reflexivity.
Qed.

Lemma prefix_app (p t : string) : String.prefix p (p ++ t) = true.
Proof.
  induction p as [|c p IH]; simpl; [destruct t; reflexivity|].
  destruct (ascii_dec c c) as [_|Hn]; [exact IH | contradiction].
Qed.

Lemma includes_unfold (pat s : string) :
  includes pat s =
  String.prefix pat s || match s with String _ s' => includes pat s' | EmptyString => false end.
Proof. destruct s; reflexivity. Qed.

Lemma includes_app (p a t : string) : includes p (a ++ p ++ t) = true.
Proof.
  induction a as [|c a IH].
  - rewrite includes_unfold. change ("" ++ p ++ t) with (p ++ t).
    rewrite prefix_app. reflexivity.
  - rewrite includes_unfold. change (String c a ++ p ++ t) with (String c (a ++ p ++ t)).
    cbv beta iota. rewrite IH. apply orb_true_r.
Qed.

End JsStringFacts.

Module ZipFacts.
Import Validation Event JsString Packer Zip JsStringFacts.

Lemma btoa_no_comma (s : string) : has_char "," (Base64.btoa s) = false.
Proof.
  unfold has_char, Base64.btoa. rewrite list_ascii_of_string_of_list_ascii.
  rewrite Base64Facts.encode_sextets, existsb_app.
  apply orb_false_iff. split.
  - destruct (existsb _ _) eqn:He; [|reflexivity].
    apply existsb_exists in He as (c & Hc & Heq).
    apply in_map_iff in Hc as (x & <- & Hx).
    pose proof (Base64Facts.sextets_bounds (list_ascii_of_string s)) as Hb.
    rewrite List.Forall_forall in Hb.
    destruct (Base64Facts.enc_char_spec x (Hb x Hx)) as (_ & _ & _ & Hc).
    congruence.
  - unfold Base64.padding.
    destruct (length (list_ascii_of_string s) mod 3) as [|[|[|]]]; reflexivity.
Qed.

Lemma includes_app_l (p a b : string) : includes p b = true -> includes p (a ++ b) = true.
Proof.
  intros Hb. induction a as [|c a IH]; [exact Hb|].
  rewrite includes_unfold. change (String c a ++ b) with (String c (a ++ b)).
  cbv beta iota. rewrite IH. apply orb_true_r.
Qed.

Lemma includes_self (p t : string) : includes p (p ++ t) = true.
Proof. exact (includes_app p "" t). Qed.

(** The media bytes come back from the data URL of [readAsDataURL] when
    the MIME type has no comma. *)
Lemma base64ToUint8Array_readAsDataURL (f : File) :
  has_char "," (file_type f) = false ->
  base64ToUint8Array (readAsDataURL f) = Some (file_bytes f).
Proof.
  intros Hty. unfold base64ToUint8Array, readAsDataURL.
  set (B := Base64.btoa (string_of_list_byte (file_bytes f))).
  assert (Hinc : includes "base64," ("data:" ++ file_type f ++ ";base64," ++ B) = true).
  { apply includes_app_l, includes_app_l.
    change (";base64," ++ B) with (";" ++ ("base64," ++ B)).
    apply includes_app_l, includes_self. }
  rewrite Hinc.
  assert (Heq : "data:" ++ file_type f ++ ";base64," ++ B =
                ("data:" ++ file_type f ++ ";base64") ++ String "," B).
  { rewrite !string_app_assoc. reflexivity. }
  rewrite Heq, split_on_app.
  2: { rewrite !has_char_app, Hty. reflexivity. }
  rewrite split_on_none by apply btoa_no_comma. simpl nth.
  unfold B. rewrite Base64Facts.atob_btoa, list_byte_of_string_of_list_byte.
  reflexivity.
Qed.

Lemma find_entry_zip_file_same (n : string) (d : entry) (z : archive) :
  find_entry n (zip_file n d z) = Some d.
Proof.
  unfold find_entry, zip_file.
  destruct (existsb (fun p => String.eqb (fst p) n) z) eqn:Hex.
  - induction z as [|[m e] z IH]; [discriminate|]. simpl in *.
    destruct (String.eqb m n) eqn:Hmn; simpl; rewrite ?String.eqb_refl; [reflexivity|].
    rewrite Hmn. auto.
  - induction z as [|[m e] z IH]; simpl in *; [rewrite String.eqb_refl; reflexivity|].
    apply orb_false_iff in Hex as [Hm Hz]. rewrite Hm. auto.
Qed.

Lemma find_entry_zip_file_other (n m : string) (d : entry) (z : archive) :
  n <> m -> find_entry n (zip_file m d z) = find_entry n z.
Proof.
  intros Hnm. unfold find_entry, zip_file.
  assert (Hmn : String.eqb m n = false) by (apply String.eqb_neq; congruence).
  destruct (existsb (fun p => String.eqb (fst p) m) z).
  - induction z as [|[k e] z IH]; [reflexivity|]. simpl.
    destruct (String.eqb k m) eqn:Hkm; simpl.
    + apply String.eqb_eq in Hkm. subst k. rewrite Hmn. simpl. exact IH.
    + destruct (String.eqb k n); [reflexivity | exact IH].
  - induction z as [|[k e] z IH]; simpl; [rewrite Hmn; reflexivity|].
    destruct (String.eqb k n); [reflexivity | exact IH].
Qed.

Lemma add_media_other (iso : Z -> string) (imd : bool) (m : EventMedia)
    (z : archive) (n : string) :
  n <> "media." ++ getFileExtension (type m) -> n <> "media_metadata.json" ->
  find_entry n (add_media iso imd m z) = find_entry n z.
Proof.
  intros H1 H2. unfold add_media.
  destruct (base64ToUint8Array (data m)); [|reflexivity].
  destruct imd; [destruct (media_metadata_json iso m)|];
    rewrite ?find_entry_zip_file_other by assumption; reflexivity.
Qed.

Lemma annotation_of_json_of_annotation (a : EventAnnotation) :
  Packer.invalid_type (value a) = false ->
  annotation_of_json (json_of_annotation a) = Some (json_annotation_back a).
Proof. destruct a as [l [] t]; simpl; first [discriminate | reflexivity]. Qed.

Lemma map_opt_annotations (l : list EventAnnotation) :
  Forall (fun a => Packer.invalid_type (value a) = false) l ->
  Base64.map_opt annotation_of_json (map json_of_annotation l) =
  Some (map json_annotation_back l).
Proof.
  induction 1 as [|a l Ha Hl IH]; [reflexivity|]. cbn [map Base64.map_opt].
  rewrite annotation_of_json_of_annotation, IH by assumption. reflexivity.
Qed.

Lemma export_Ok (iso : Z -> string) (pkg : EventPackage) (im imd : bool) :
  exportEventPackageAsZip iso pkg im imd =
  Ok (let z1 := if imd then zip_file "metadata.json" (EText (metadata_json pkg)) [] else [] in
      let z2 := zip_file "annotations.json"
                  (EText (JArr (map json_of_annotation (annotations pkg)))) z1 in
      if im then match media pkg with Some m => add_media iso imd m z2 | None => z2 end
      else z2).
Proof. reflexivity. Qed.

Lemma media_name_neq (ext n : string) :
  n = "annotations.json" \/ n = "metadata.json" -> n <> "media." ++ ext.
Proof. intros [-> | ->]; discriminate. Qed.

Lemma media_name_neq_meta (ext : string) : "media." ++ ext <> "media_metadata.json".
Proof. discriminate. Qed.

Lemma media_metadata_json_cases (iso : Z -> string) (m : EventMedia) :
  media_metadata_json iso m =
  if Z.leb (Z.abs (lastModified m)) 8640000000000000 then
    Ok (JObj [("originalName", JStr (name m)); ("type", JStr (type m));
              ("size", JNum (size m));
              ("lastModified", if Z.eqb (lastModified m) 0 then JNull
                               else JStr (iso (lastModified m)))])
  else Err "Invalid time value".
Proof.
  unfold media_metadata_json, toISOString.
  destruct (Z.eqb_spec (lastModified m) 0) as [H0|_].
  - rewrite H0. reflexivity.
  - destruct (Z.leb _ _); reflexivity.
Qed.

Lemma media_metadata_json_valid (iso : Z -> string) (m : EventMedia) :
  (Z.abs (lastModified m) <= 8640000000000000)%Z ->
  media_metadata_json iso m =
  Ok (JObj [("originalName", JStr (name m)); ("type", JStr (type m));
            ("size", JNum (size m));
            ("lastModified", if Z.eqb (lastModified m) 0 then JNull
                             else JStr (iso (lastModified m)))]).
Proof.
  intros Hlm. unfold media_metadata_json.
  destruct (Z.eqb (lastModified m) 0); [reflexivity|].
  unfold toISOString. apply Z.leb_le in Hlm. rewrite Hlm. reflexivity.
Qed.

End ZipFacts.

Module ZipTheorems.
Import Validation Event JsString Packer Zip ZipFacts.

(** C10: whatever the options, the export succeeds and its archive holds
    the entry "annotations.json" with the serialized annotation list. *)
Theorem exportEventPackageAsZip_annotations_entry (iso : Z -> string)
    (pkg : EventPackage) (includeMedia includeMetadata : bool) :
  exists z, exportEventPackageAsZip iso pkg includeMedia includeMetadata = Ok z /\
  find_entry "annotations.json" z =
  Some (EText (JArr (map json_of_annotation (annotations pkg)))).
Proof.
  eexists. split; [apply export_Ok|]. cbv zeta.
  destruct includeMedia; [destruct (media pkg) as [m|]|];
    rewrite ?add_media_other
      by first [apply media_name_neq; auto | discriminate];
    apply find_entry_zip_file_same.
Qed.

(** C7, as the code behaves: an exception in the media block is caught
    and logged, and the export goes on.  When the media data cannot be
    decoded ([atob] throws), or when metadata is requested and the file's
    [lastModified] is out of the range of [Date] ([toISOString] throws a
    [RangeError]), the export still succeeds; its archive holds
    "metadata.json" (if requested), "annotations.json", "media.<ext>" only
    when the data was decoded (and media is requested), and no
    "media_metadata.json". *)
Theorem exportEventPackageAsZip_media_failure_caught (iso : Z -> string)
    (pkg : EventPackage) (includeMedia includeMetadata : bool) (m : EventMedia) :
  media pkg = Some m ->
  base64ToUint8Array (data m) = None \/
  (includeMetadata = true /\ (8640000000000000 < Z.abs (lastModified m))%Z) ->
  exists z, exportEventPackageAsZip iso pkg includeMedia includeMetadata = Ok z /\
  find_entry "media_metadata.json" z = None /\
  map fst z =
    ((if includeMetadata then ["metadata.json"] else []) ++ ["annotations.json"] ++
     (if includeMedia then
        match base64ToUint8Array (data m) with
        | Some _ => [("media." ++ getFileExtension (type m))%string]
        | None => []
        end
      else []))%list.
Proof.
  intros Hm Hfail. rewrite export_Ok. cbv zeta. rewrite Hm. unfold add_media.
  destruct (base64ToUint8Array (data m)) as [bytes|] eqn:Hdec.
  - destruct Hfail as [Hd | [-> Hlm]]; [congruence|].
    rewrite media_metadata_json_cases.
    assert (Hleb : Z.leb (Z.abs (lastModified m)) 8640000000000000 = false)
      by (apply Z.leb_gt; lia).
    rewrite Hleb.
    eexists. split; [reflexivity|].
    destruct includeMedia; split; reflexivity.
  - eexists. split; [reflexivity|].
    destruct includeMedia, includeMetadata; split; reflexivity.
Qed.

Lemma exportEventPackageAsZip_media_failure_caught_witness :
  media far_future_package = Some far_future_media /\
  (base64ToUint8Array (data far_future_media) = None \/
   (true = true /\ (8640000000000000 < Z.abs (lastModified far_future_media))%Z)) /\
  exists z, exportEventPackageAsZip sample_iso far_future_package true true = Ok z /\
  find_entry "media_metadata.json" z = None /\
  map fst z =
    ((if true then ["metadata.json"] else []) ++ ["annotations.json"] ++
     (if true then
        match base64ToUint8Array (data far_future_media) with
        | Some _ => [("media." ++ getFileExtension (type far_future_media))%string]
        | None => []
        end
      else []))%list.
Proof.
  assert (H : base64ToUint8Array (data far_future_media) = None \/
              (true = true /\
               (8640000000000000 < Z.abs (lastModified far_future_media))%Z))
    by (right; split; [reflexivity | vm_compute; reflexivity]).
  split; [reflexivity|]. split; [exact H|].
  exact (exportEventPackageAsZip_media_failure_caught sample_iso far_future_package
           true true far_future_media eq_refl H).
Defined.

(** C7 counterexample: media data that [atob] rejects does not abort the
    export; the archive is returned without the media entry. *)
Lemma exportEventPackageAsZip_bad_media_partial :
  match exportEventPackageAsZip sample_iso bad_media_package true true with
  | Ok z => find_entry "media.png" z = None /\
            map fst z = ["metadata.json"; "annotations.json"]
  | Err _ => False
  end.
Proof. vm_compute. split; reflexivity. Qed.

(** C8, amended: for a successful build whose media file, if any, has a
    MIME type without a comma, exporting with media and metadata and
    unpacking "annotations.json" gives back the package's annotation list,
    except that a [NaN] or infinite value, which [JSON.stringify] writes as
    [null], comes back as [null]; "metadata.json" holds the package summary;
    "media.<ext>" holds the file's bytes, so its byte size is the file's
    size; "media_metadata.json" records the file's name, MIME type, size and
    last-modified date when that date is within the range of [Date] (or
    is 0, recorded as [null]), and is missing when it is out of range. *)
Theorem exportEventPackageAsZip_round_trip (iso : Z -> string)
    (formData : gmap string Validation.value) (labels : list Label) (mediaFile : option File)
    (options : Options) (now uuid : string) (read_failure : option string)
    (pkg : EventPackage) :
  createEventPackage formData labels mediaFile options now uuid read_failure = Ok pkg ->
  (forall f, mediaFile = Some f -> has_char "," (file_type f) = false) ->
  exists z, exportEventPackageAsZip iso pkg true true = Ok z /\
  unpack_annotations z = Some (map json_annotation_back (annotations pkg)) /\
  find_entry "metadata.json" z = Some (EText (metadata_json pkg)) /\
  match mediaFile with
  | Some f =>
      find_entry ("media." ++ getFileExtension (file_type f)) z =
        Some (EBinary (file_bytes f)) /\
      find_entry "media_metadata.json" z =
        if Z.leb (Z.abs (file_lastModified f)) 8640000000000000 then
          Some (EText (JObj [("originalName", JStr (file_name f));
                             ("type", JStr (file_type f));
                             ("size", JNum (file_size f));
                             ("lastModified",
                                if Z.eqb (file_lastModified f) 0 then JNull
                                else JStr (iso (file_lastModified f)))]))
        else None
  | None => True
  end.
Proof.
  intros Hpkg Hf.
  pose proof (PackerFacts.createEventPackage_ok _ _ _ _ _ _ _ _ Hpkg) as (Hall & _ & Hp).
  assert (Hanns : Forall (fun a => invalid_type (value a) = false) (annotations pkg)).
  { rewrite Hp. cbn [annotations]. apply Forall_app. split.
    - apply Forall_map. exact Hall.
    - repeat constructor. }
  clear Hpkg Hall.
  eexists. split; [apply export_Ok|]. cbv zeta.
  destruct mediaFile as [f|].
  - pose proof (Hf f eq_refl) as Hty. clear Hf.
    assert (Hmed : media pkg = Some (mkMedia (file_type f) (readAsDataURL f)
                     (file_name f) (file_size f) (file_lastModified f)))
      by (rewrite Hp; reflexivity).
    rewrite Hmed. unfold add_media. cbn [data type].
    rewrite base64ToUint8Array_readAsDataURL by exact Hty.
    rewrite media_metadata_json_cases. cbn [name type size lastModified].
    destruct (Z.leb (Z.abs (file_lastModified f)) 8640000000000000).
    + split; [|split; [|split]].
      * unfold unpack_annotations.
        rewrite find_entry_zip_file_other by discriminate.
        rewrite find_entry_zip_file_other by (apply media_name_neq; auto).
        rewrite find_entry_zip_file_same. apply map_opt_annotations. exact Hanns.
      * rewrite find_entry_zip_file_other by discriminate.
        rewrite find_entry_zip_file_other by (apply media_name_neq; auto).
        rewrite find_entry_zip_file_other by discriminate.
        apply find_entry_zip_file_same.
      * rewrite find_entry_zip_file_other, find_entry_zip_file_same;
          [reflexivity | apply media_name_neq_meta].
      * apply find_entry_zip_file_same.
    + split; [|split; [|split]].
      * unfold unpack_annotations.
        rewrite find_entry_zip_file_other by (apply media_name_neq; auto).
        rewrite find_entry_zip_file_same. apply map_opt_annotations. exact Hanns.
      * rewrite find_entry_zip_file_other by (apply media_name_neq; auto).
        rewrite find_entry_zip_file_other by discriminate.
        apply find_entry_zip_file_same.
      * apply find_entry_zip_file_same.
      * rewrite find_entry_zip_file_other
          by (intros Heq; apply (media_name_neq_meta (getFileExtension (file_type f)));
              symmetry; exact Heq).
        reflexivity.
  - assert (Hmed : media pkg = None) by (rewrite Hp; reflexivity).
    rewrite Hmed. split; [|split; [|exact I]].
    + unfold unpack_annotations. rewrite find_entry_zip_file_same.
      apply map_opt_annotations. exact Hanns.
    + rewrite find_entry_zip_file_other, find_entry_zip_file_same;
        [reflexivity | discriminate].
Qed.

Lemma exportEventPackageAsZip_round_trip_witness :
  match createEventPackage {[ "1" := VStr "Gala"; "n" := VInf false ]}
          [name_label; age_label] (Some photo)
          no_options "2024-05-01T10:00:00.000Z" "0b7e" None with
  | Ok pkg =>
      exists z, exportEventPackageAsZip sample_iso pkg true true = Ok z /\
      unpack_annotations z = Some (map json_annotation_back (annotations pkg)) /\
      find_entry "metadata.json" z = Some (EText (metadata_json pkg)) /\
      (find_entry ("media." ++ getFileExtension (file_type photo)) z =
         Some (EBinary (file_bytes photo)) /\
       find_entry "media_metadata.json" z =
         if Z.leb (Z.abs (file_lastModified photo)) 8640000000000000 then
           Some (EText (JObj [("originalName", JStr (file_name photo));
                              ("type", JStr (file_type photo));
                              ("size", JNum (file_size photo));
                              ("lastModified",
                                 if Z.eqb (file_lastModified photo) 0 then JNull
                                 else JStr (sample_iso (file_lastModified photo)))]))
         else None)
  | Err _ => False
  end.
Proof.
  refine (exportEventPackageAsZip_round_trip sample_iso
            {[ "1" := VStr "Gala"; "n" := VInf false ]}
            [name_label; age_label] (Some photo) no_options "2024-05-01T10:00:00.000Z" "0b7e"
            None _ eq_refl _).
  intros f Hf. injection Hf as <-. reflexivity.
Defined.

(** C8 counterexample: a file whose [lastModified] is past the range of
    [Date] builds, but [toISOString] throws inside the media block, so the
    archive has no "media_metadata.json" and the MIME type is lost. *)
Lemma exportEventPackageAsZip_far_future_no_media_metadata :
  match createEventPackage ∅ [] (Some far_future_photo) no_options
          "2024-05-01T10:00:00.000Z" "0b7e" None with
  | Ok pkg =>
      match exportEventPackageAsZip sample_iso pkg true true with
      | Ok z => find_entry "media_metadata.json" z = None /\
                map fst z = ["metadata.json"; "annotations.json"; "media.png"]
      | Err _ => False
      end
  | Err _ => False
  end.
Proof. vm_compute. split; reflexivity. Qed.

End ZipTheorems.

Module KeyStoreTheorems.
Import KeyStore.

Lemma store_lookup_singleton (k : string * Z) (r : KeyRecord) :
  ({[k := r]} : Store) !! k = Some r.
Proof. apply lookup_singleton_eq. Qed.

Lemma store_lookup_empty (k : string * Z) : (∅ : Store) !! k = None.
Proof. apply lookup_empty. Qed.

Lemma store_insert_empty (k : string * Z) (r : KeyRecord) :
  <[k := r]> (∅ : Store) = {[k := r]}.
Proof. apply insert_empty. Qed.

Lemma run_storeKeyPair_stored (gens : list (string * string)) (r : KeyRecord) :
  kid r = 1%Z ->
  run_storeKeyPair gens {[("keys", 1%Z) := r]} =
  (repeat (Ok tt) (length gens), {[("keys", 1%Z) := r]}).
Proof.
  intros Hk. induction gens as [|[pk sk] gens IH]; [reflexivity|].
  cbn [run_storeKeyPair storeKeyPair]. unfold storage_insert. cbn [kid].
  rewrite store_lookup_singleton. cbv iota.
  assert (Hinc : JsString.includes "Key already exists" "Key already exists" = true)
    by reflexivity.
  rewrite Hinc. cbv iota. rewrite IH. reflexivity.
Qed.

(** C9 (against the modelled storage): on a fresh store the first call of
    [storeKeyPair] persists its pair under kid 1; every later call, whose
    insert fails with "Key already exists", reports success and leaves the
    store unchanged.  So the store only ever holds one pair and
    [retrieveKeyPair 1] returns the same key material after the first call
    and after any number of further calls. *)
Theorem storeKeyPair_idempotent (g : string * string) (gens : list (string * string)) :
  run_storeKeyPair (g :: gens) ∅ =
    (repeat (Ok tt) (S (length gens)), {[("keys", 1%Z) := mkKeyRecord g.1 g.2 1]}) /\
  retrieveKeyPair 1 (snd (storeKeyPair g ∅)) = (Some g.1, Some g.2) /\
  retrieveKeyPair 1 (snd (run_storeKeyPair (g :: gens) ∅)) =
    retrieveKeyPair 1 (snd (storeKeyPair g ∅)).
Proof.
  destruct g as [pk sk].
  assert (Hfirst : storeKeyPair (pk, sk) ∅ =
                   (Ok tt, {[("keys", 1%Z) := mkKeyRecord pk sk 1]})).
  { unfold storeKeyPair, storage_insert. cbn [kid].
    rewrite store_lookup_empty. cbn match. rewrite store_insert_empty. reflexivity. }
  assert (Hrun : run_storeKeyPair ((pk, sk) :: gens) ∅ =
    (repeat (Ok tt) (S (length gens)), {[("keys", 1%Z) := mkKeyRecord pk sk 1]})).
  { cbn [run_storeKeyPair]. rewrite Hfirst.
    rewrite run_storeKeyPair_stored by reflexivity. reflexivity. }
  rewrite Hrun, Hfirst. cbn [snd fst].
  unfold retrieveKeyPair, storage_findOne. rewrite store_lookup_singleton.
  auto.
Qed.

End KeyStoreTheorems.

(* ------------------------------------------------------------------ *)
(** ** Further properties of the code *)
(* ------------------------------------------------------------------ *)

Module PowExtra.
Import Pow PowFacts.

(** With difficulty 0 the target is the empty string, a prefix of every
    digest: [solvePow] returns nonce 0 after one hash. *)
Theorem solvePow_difficulty_zero (sha256 : string -> string) (p : string) (fuel : nat) :
  solvePow sha256 (mkPowChallenge p 0) (S fuel) = Some 0.
Proof.
  unfold solvePow. cbn [solve_loop difficulty repeat_zero].
  destruct (sha256 _); reflexivity.
Qed.

(** For one prefix, a harder challenge never yields an earlier nonce: the
    solution found for difficulty [d] is at most the one found for any
    [d' >= d]. *)
Theorem solvePow_monotone (sha256 : string -> string) (p : string)
    (d d' fuel fuel' n n' : nat) :
  d <= d' ->
  solvePow sha256 (mkPowChallenge p d) fuel = Some n ->
  solvePow sha256 (mkPowChallenge p d') fuel' = Some n' ->
  n <= n'.
Proof.
  intros Hd H H'. unfold solvePow in H, H'.
  apply solve_loop_spec in H as (_ & _ & Hmin).
  apply solve_loop_spec in H' as (_ & Hok' & _).
  destruct (Nat.le_gt_cases n n') as [|Hlt]; [assumption|].
  exfalso. apply (Hmin n'); [lia|].
  unfold pow_ok, pow_data in *. cbn [prefix difficulty] in *. lia.
Qed.

Lemma solvePow_monotone_witness :
  1 <= 2 /\
  solvePow toy_sha256 (mkPowChallenge "test" 1) 10 = Some 1 /\
  solvePow toy_sha256 (mkPowChallenge "test" 2) 10 = Some 2 /\
  1 <= 2.
Proof.
  split; [lia|]. split; [reflexivity|]. split; [reflexivity|].
  exact (solvePow_monotone toy_sha256 "test" 1 2 10 10 1 2
           ltac:(lia) eq_refl eq_refl).
Defined.

End PowExtra.

Module ValidationExtraFacts.
Import Validation ValidationFacts.






End ValidationExtraFacts.

Module EventFormFacts.
Import Validation EventForm.






End EventFormFacts.

Module ValidationExtra.
Import Validation ValidationFacts ValidationExtraFacts EventForm EventFormFacts.



End ValidationExtra.

Module PackerExtraFacts.
Import Validation Packer.



End PackerExtraFacts.

Module PackerExtra.
Import Validation Packer EventForm EventFormFacts PackerExtraFacts.



(** When every value passes the type check but reading the media file
    fails, the build fails with "Failed to process media file: " followed by
    the reader's message, or by "Failed to read file" when that message is
    empty. *)
Theorem createEventPackage_read_failure (formData : gmap string value)
    (labels : list Label) (f : File) (options : Options) (now uuid msg : string) :
  Forall (fun l => invalid_type (field_value formData l) = false) labels ->
  createEventPackage formData labels (Some f) options now uuid (Some msg) =
  Err ("Failed to process media file: " ++
       (if String.eqb msg "" then "Failed to read file" else msg)).
Proof.
  intros Hall. unfold createEventPackage.
  rewrite (proj2 (PackerFacts.map_annotate_ok now formData labels _) (conj Hall eq_refl)).
  reflexivity.
Qed.

Lemma createEventPackage_read_failure_witness :
  Forall (fun l => invalid_type (field_value {[ "1" := VStr "Gala" ]} l) = false) [name_label] /\
  createEventPackage {[ "1" := VStr "Gala" ]} [name_label] (Some photo) no_options
    "2024-05-01T10:00:00.000Z" "0b7e" (Some "") =
  Err ("Failed to process media file: " ++
       (if String.eqb "" "" then "Failed to read file" else "")).
Proof.
  assert (H : Forall (fun l => invalid_type (field_value {[ "1" := VStr "Gala" ]} l) = false) [name_label])
    by (repeat constructor; vm_compute; discriminate).
  split; [exact H|].
  exact (createEventPackage_read_failure _ _ photo no_options
           "2024-05-01T10:00:00.000Z" "0b7e" "" H).
Defined.

End PackerExtra.

Module ZipExtraFacts.
Import JsString JsStringFacts Zip ZipFacts.

Lemma prefix_has_char (c : ascii) (p s : string) :
  String.prefix p s = true -> has_char c p = true -> has_char c s = true.
Proof.
  unfold has_char. revert s. induction p as [|x p IH]; intros s Hp Hc; [discriminate|].
  destruct s as [|y s]; [discriminate|].
  cbn [String.prefix] in Hp. destruct (ascii_dec x y) as [<-|]; [|discriminate].
  cbn [list_ascii_of_string existsb] in *.
  apply orb_true_iff in Hc as [Hc|Hc]; [rewrite Hc; reflexivity|].
  rewrite (IH s Hp Hc). apply orb_true_r.
Qed.

Lemma includes_has_char (c : ascii) (p s : string) :
  includes p s = true -> has_char c p = true -> has_char c s = true.
Proof.
  induction s as [|y s IH]; intros Hi Hc.
  - rewrite includes_unfold in Hi. rewrite orb_false_r in Hi.
    exact (prefix_has_char c p _ Hi Hc).
  - rewrite includes_unfold in Hi. apply orb_true_iff in Hi as [Hi|Hi].
    + exact (prefix_has_char c p _ Hi Hc).
    + unfold has_char in *. cbn [list_ascii_of_string existsb].
      rewrite (IH Hi Hc). apply orb_true_r.
Qed.

Lemma find_entry_none_zip_file (n m : string) (d : entry) (z : archive) :
  n <> m -> find_entry n z = None -> find_entry n (zip_file m d z) = None.
Proof. intros Hnm Hz. rewrite find_entry_zip_file_other by exact Hnm. exact Hz. Qed.

End ZipExtraFacts.

Module ZipExtra.
Import Validation Event JsString JsStringFacts Packer Zip ZipFacts ZipExtraFacts.

(** [getFileExtension] returns the part after the first "/" of a MIME type
    "<a>/<b>" (neither part containing "/"), and "bin" for a MIME type
    without "/". *)
Theorem getFileExtension_spec (a b : string) :
  has_char "/" a = false -> has_char "/" b = false ->
  getFileExtension (a ++ String "/" b) = b /\ getFileExtension a = "bin".
Proof.
  intros Ha Hb. unfold getFileExtension.
  rewrite split_on_app by exact Ha. rewrite !split_on_none by assumption.
  split; reflexivity.
Qed.

Lemma getFileExtension_spec_witness :
  has_char "/" "image" = false /\ has_char "/" "png" = false /\
  (getFileExtension ("image" ++ String "/" "png") = "png" /\
   getFileExtension "image" = "bin").
Proof.
  split; [reflexivity|]. split; [reflexivity|].
  exact (getFileExtension_spec "image" "png" eq_refl eq_refl).
Defined.

(** [base64ToUint8Array] also accepts plain base64 without a data-URL
    prefix: on the [btoa] text of any byte string it returns those bytes. *)
Theorem base64ToUint8Array_plain (bytes : list byte) :
  base64ToUint8Array (Base64.btoa (string_of_list_byte bytes)) = Some bytes.
Proof.
  unfold base64ToUint8Array.
  destruct (includes "base64," (Base64.btoa (string_of_list_byte bytes))) eqn:Hi.
  - pose proof (includes_has_char "," _ _ Hi eq_refl) as Hc.
    rewrite btoa_no_comma in Hc. discriminate.
  - rewrite Base64Facts.atob_btoa, list_byte_of_string_of_list_byte. reflexivity.
Qed.

(** With [includeMetadata] false the archive never holds "metadata.json"
    nor "media_metadata.json", whatever the package and [includeMedia]. *)
Theorem exportEventPackageAsZip_no_metadata (iso : Z -> string) (pkg : EventPackage)
    (includeMedia : bool) :
  exists z, exportEventPackageAsZip iso pkg includeMedia false = Ok z /\
  find_entry "metadata.json" z = None /\ find_entry "media_metadata.json" z = None.
Proof.
  eexists. split; [apply export_Ok|]. cbv zeta.
  assert (Hbase : forall n, n <> "annotations.json" ->
            find_entry n (zip_file "annotations.json"
                            (EText (JArr (map json_of_annotation (annotations pkg)))) []) = None)
    by (intros n Hn; apply find_entry_none_zip_file; [exact Hn | reflexivity]).
  destruct includeMedia; [destruct (media pkg) as [m|]|].
  - unfold add_media. destruct (base64ToUint8Array (data m)) as [bytes|].
    + split; apply find_entry_none_zip_file.
      * apply media_name_neq. auto.
      * apply Hbase. discriminate.
      * intros H. apply (media_name_neq_meta (getFileExtension (type m))). auto.
      * apply Hbase. discriminate.
    + split; apply Hbase; discriminate.
  - split; apply Hbase; discriminate.
  - split; apply Hbase; discriminate.
Qed.

(** A media file whose [lastModified] is 0 (falsy in JavaScript) is
    exported with ["lastModified": null] in "media_metadata.json", and its
    bytes are still written to "media.<ext>". *)
Theorem exportEventPackageAsZip_lastModified_zero (iso : Z -> string)
    (pkg : EventPackage) (m : EventMedia) (bytes : list byte) :
  media pkg = Some m -> base64ToUint8Array (data m) = Some bytes ->
  lastModified m = 0%Z ->
  exists z, exportEventPackageAsZip iso pkg true true = Ok z /\
  find_entry ("media." ++ getFileExtension (type m)) z = Some (EBinary bytes) /\
  find_entry "media_metadata.json" z =
    Some (EText (JObj [("originalName", JStr (name m)); ("type", JStr (type m));
                       ("size", JNum (size m)); ("lastModified", JNull)])).
Proof.
  intros Hm Hd H0. eexists. split; [apply export_Ok|]. cbv zeta.
  rewrite Hm. unfold add_media. rewrite Hd.
  unfold media_metadata_json. rewrite H0. cbn [Z.eqb].
  split.
  - rewrite find_entry_zip_file_other by apply media_name_neq_meta.
    apply find_entry_zip_file_same.
  - apply find_entry_zip_file_same.
Qed.

Lemma exportEventPackageAsZip_lastModified_zero_witness :
  let m := mkMedia "image/png" (Base64.btoa (string_of_list_byte [x89; x50]))
             "photo.png" 2 0 in
  let pkg := mkPackage "0b7e" "1.0.0" [] (Some m)
               (mkMetadata "2024-05-01T10:00:00.000Z" None web) in
  media pkg = Some m /\ base64ToUint8Array (data m) = Some [x89; x50] /\
  lastModified m = 0%Z /\
  (exists z, exportEventPackageAsZip sample_iso pkg true true = Ok z /\
   find_entry ("media." ++ getFileExtension (type m)) z = Some (EBinary [x89; x50]) /\
   find_entry "media_metadata.json" z =
     Some (EText (JObj [("originalName", JStr (name m)); ("type", JStr (type m));
                        ("size", JNum (size m)); ("lastModified", JNull)]))).
Proof.
  intros m pkg.
  assert (Hd : base64ToUint8Array (data m) = Some [x89; x50]) by (vm_compute; reflexivity).
  split; [reflexivity|]. split; [exact Hd|]. split; [reflexivity|].
  exact (exportEventPackageAsZip_lastModified_zero sample_iso pkg m [x89; x50]
           eq_refl Hd eq_refl).
Defined.

(** The "metadata.json" of an exported build: the package id drawn from
    [uuidv4()], version "1.0.0", the build timestamp, [createdBy] when
    given, the source (default "web"), an [annotationCount] of one more
    than the number of labels (the extra "createdAt" annotation) and
    [hasMedia] telling whether a media file was given. *)
Theorem export_build_metadata (iso : Z -> string) (formData : gmap string Validation.value)
    (labels : list Label) (mediaFile : option File) (options : Options)
    (now uuid : string) (read_failure : option string) (pkg : EventPackage)
    (includeMedia : bool) :
  createEventPackage formData labels mediaFile options now uuid read_failure = Ok pkg ->
  exists z, exportEventPackageAsZip iso pkg includeMedia true = Ok z /\
  find_entry "metadata.json" z =
    Some (EText (JObj ([("id", JStr uuid); ("version", JStr "1.0.0");
                        ("createdAt", JStr now)] ++
                       match Packer.createdBy options with
                       | Some c => [("createdBy", JStr c)]
                       | None => []
                       end ++
                       [("source", JStr (source_name
                                           (match Packer.source options with
                                            | Some s => s
                                            | None => web
                                            end)));
                        ("annotationCount", JNum (Z.of_nat (S (length labels))));
                        ("hasMedia", JBool (match mediaFile with
                                            | Some _ => true
                                            | None => false
                                            end))])%list)).
Proof.
  intros Hpkg.
  pose proof (PackerFacts.createEventPackage_ok _ _ _ _ _ _ _ _ Hpkg) as (_ & _ & Hp).
  eexists. split; [apply export_Ok|]. cbv zeta.
  assert (Hmeta : find_entry "metadata.json"
            (zip_file "annotations.json"
               (EText (JArr (map json_of_annotation (annotations pkg))))
               (zip_file "metadata.json" (EText (metadata_json pkg)) [])) =
          Some (EText (metadata_json pkg))).
  { rewrite find_entry_zip_file_other by discriminate.
    apply find_entry_zip_file_same. }
  assert (Hj : metadata_json pkg =
     JObj ([("id", JStr uuid); ("version", JStr "1.0.0"); ("createdAt", JStr now)] ++
           match Packer.createdBy options with
           | Some c => [("createdBy", JStr c)]
           | None => []
           end ++
           [("source", JStr (source_name (match Packer.source options with
                                          | Some s => s
                                          | None => web
                                          end)));
            ("annotationCount", JNum (Z.of_nat (S (length labels))));
            ("hasMedia", JBool (match mediaFile with Some _ => true | None => false end))])%list).
  { rewrite Hp. unfold metadata_json. cbn [id version metadata createdAt createdBy source
      annotations media].
    rewrite length_app, length_map. cbn [length]. rewrite Nat.add_1_r.
    destruct mediaFile; reflexivity. }
  rewrite <- Hj.
  destruct includeMedia; [destruct (media pkg) as [m|]|]; try exact Hmeta.
  rewrite add_media_other; [exact Hmeta | |discriminate].
  apply media_name_neq. auto.
Qed.

Lemma export_build_metadata_witness :
  match createEventPackage {[ "1" := VStr "Gala" ]} [name_label; age_label] (Some photo)
          no_options "2024-05-01T10:00:00.000Z" "0b7e" None with
  | Ok pkg =>
      exists z, exportEventPackageAsZip sample_iso pkg true true = Ok z /\
      find_entry "metadata.json" z =
        Some (EText (JObj ([("id", JStr "0b7e"); ("version", JStr "1.0.0");
                            ("createdAt", JStr "2024-05-01T10:00:00.000Z")] ++
                           [] ++
                           [("source", JStr (source_name web));
                            ("annotationCount", JNum (Z.of_nat (S (length [name_label; age_label]))));
                            ("hasMedia", JBool true)])%list))
  | Err _ => False
  end.
Proof.
  exact (export_build_metadata sample_iso {[ "1" := VStr "Gala" ]} [name_label; age_label]
           (Some photo) no_options "2024-05-01T10:00:00.000Z" "0b7e" None _ true eq_refl).
Defined.

End ZipExtra.

Module KeyServiceExtra.
Import KeyStore KeyService KeyStoreTheorems.

(** [KeyManagement()] on a fresh store, with [checkKeyPairExists()]
    answering false, stores the generated pair and returns it; every later
    call returns that same pair and leaves the store unchanged, whatever
    [checkKeyPairExists()] answers and whatever pair would be generated.  If
    [checkKeyPairExists()] wrongly answers true on a fresh store, the call
    fails with "Failed to retrieve key pair.". *)
Theorem KeyManagement_fresh_then_stable (pk sk pk' sk' : string) (b : bool) :
  KeyManagement false (pk, sk) ∅ =
    (Ok (pk, sk), {[("keys", 1%Z) := mkKeyRecord pk sk 1]}) /\
  KeyManagement b (pk', sk') {[("keys", 1%Z) := mkKeyRecord pk sk 1]} =
    (Ok (pk, sk), {[("keys", 1%Z) := mkKeyRecord pk sk 1]}) /\
  KeyManagement true (pk, sk) ∅ = (Err "Failed to retrieve key pair.", ∅).
Proof.
  set (st1 := {[("keys", 1%Z) := mkKeyRecord pk sk 1]} : Store).
  assert (Hfirst : storeKeyPair (pk, sk) ∅ = (Ok tt, st1)).
  { unfold storeKeyPair, storage_insert. cbn [kid].
    rewrite store_lookup_empty. cbv iota. rewrite store_insert_empty. reflexivity. }
  assert (Hget : retrieveKeyPair 1 st1 = (Some pk, Some sk)).
  { unfold retrieveKeyPair, storage_findOne, st1. rewrite store_lookup_singleton.
    reflexivity. }
  split; [|split].
  - unfold KeyManagement. cbv iota. rewrite Hfirst. cbv iota. rewrite Hget. reflexivity.
  - assert (Hagain : storeKeyPair (pk', sk') st1 = (Ok tt, st1)).
    { pose proof (run_storeKeyPair_stored [(pk', sk')] (mkKeyRecord pk sk 1) eq_refl) as H.
      cbn [run_storeKeyPair] in H. fold st1 in H.
      destruct (storeKeyPair (pk', sk') st1) as [r st2].
      cbn [run_storeKeyPair] in H. injection H as -> ->. reflexivity. }
    unfold KeyManagement. destruct b; cbv iota; [|rewrite Hagain; cbv iota];
      rewrite Hget; reflexivity.
  - unfold KeyManagement. cbv iota.
    unfold retrieveKeyPair, storage_findOne. rewrite store_lookup_empty. reflexivity.
Qed.

End KeyServiceExtra.

Module LabelManagerExtra.
Import Validation LabelManager.

(** [initializeLabels()] with nothing cached fetches the labels, returns
    them and caches them; a second call, given that [JSON.parse] reads back
    what [JSON.stringify] wrote, returns the cached labels without fetching
    and leaves [localStorage] unchanged. *)
Theorem initializeLabels_caches (stringify : list Label -> string)
    (parse : string -> result (option (list Label))) (ls : gmap string string) :
  ls !! LABELS_STORAGE_KEY = None ->
  stringify fetchLabels <> "" ->
  parse (stringify fetchLabels) = Ok (Some fetchLabels) ->
  initializeLabels stringify parse ls = (Ok fetchLabels, cacheLabels stringify fetchLabels ls) /\
  initializeLabels stringify parse (cacheLabels stringify fetchLabels ls) =
    (Ok fetchLabels, cacheLabels stringify fetchLabels ls).
Proof.
  intros Hnone Hne Hparse. split.
  - unfold initializeLabels, getCachedLabels. rewrite Hnone. reflexivity.
  - unfold initializeLabels, getCachedLabels, cacheLabels.
    rewrite lookup_insert_eq.
    destruct (String.eqb_spec (stringify fetchLabels) "") as [|_]; [contradiction|].
    rewrite Hparse. reflexivity.
Qed.

Lemma initializeLabels_caches_witness :
  let stringify := fun (_ : list Label) => "[labels]" in
  let parse := fun s => if String.eqb s "[labels]" then Ok (Some fetchLabels)
                        else Err "Unexpected token" in
  (∅ : gmap string string) !! LABELS_STORAGE_KEY = None /\
  stringify fetchLabels <> "" /\
  parse (stringify fetchLabels) = Ok (Some fetchLabels) /\
  (initializeLabels stringify parse ∅ = (Ok fetchLabels, cacheLabels stringify fetchLabels ∅) /\
   initializeLabels stringify parse (cacheLabels stringify fetchLabels ∅) =
     (Ok fetchLabels, cacheLabels stringify fetchLabels ∅)).
Proof.
  intros stringify parse.
  assert (H1 : (∅ : gmap string string) !! LABELS_STORAGE_KEY = None) by reflexivity.
  assert (H2 : stringify fetchLabels <> "") by discriminate.
  assert (H3 : parse (stringify fetchLabels) = Ok (Some fetchLabels)) by reflexivity.
  split; [exact H1|]. split; [exact H2|]. split; [exact H3|].
  exact (initializeLabels_caches stringify parse ∅ H1 H2 H3).
Defined.

End LabelManagerExtra.

Module TypeGuardsExtra.
Import Validation Event TypeGuards.

(** The guard [isEventPackage] accepts every package object
    [createEventPackage] builds, whatever its fields hold, so its
    "Failed to create valid event package" error is never thrown. *)
Theorem isEventPackage_built (pkg : EventPackage) :
  isEventPackage (js_of_package pkg) = true.
Proof.
  unfold isEventPackage, js_of_package. cbn.
  apply andb_true_intro. split.
  - apply forallb_forall. intros a Ha. apply in_map_iff in Ha as (a' & <- & _).
    reflexivity.
  - destruct (media pkg); reflexivity.
Qed.

End TypeGuardsExtra.
